(** * Company-intelligence workflow: orchestrator, report generator and CLI

    A shallow embedding of [src/orchestrator/supervisor.py], of the two stage
    helpers in [src/agents/data_collector.py] and [src/agents/analyst.py], of
    the formatting helpers in [src/tools/summary_generator.py], of
    [src/main.py], and of the four tools in [src/tools] around their random,
    network and float parts.

    Conventions.
    - A Python [str] is a [string] holding its UTF-8 encoding; non-ASCII
      literals of the source are kept as their UTF-8 bytes.  On ASCII text
      [str.upper], [str.lower] and [str.title] are computed; on any other
      text they follow the Unicode character database, which is taken as
      given ([Text.Unicode]).  [str.strip] is computed on every text: the
      white-space characters of Unicode are matched by their encodings.
    - A Python [float] is the rational it denotes, so comparisons are exact;
      the literal [0.2] is the binary64 number nearest to one fifth.
    - A call that can raise returns an [outcome]; [Raised msg] carries
      [str(e)] of the exception.  The formatter of the stock summary raises
      [TypeError] on a change that is [None] or a text; the two stages catch
      it, the report generator does not.
    - [AgentState] is a [TypedDict]: a record whose optional fields are [None]
      both when the key is missing and when its value is [None]; every read in
      the source ([state.get(k, d)] followed by a truth test or a comparison)
      treats the two alike.
    - A node's return value is a plain [dict]; [Update] records which keys it
      holds.
    - Progress lines printed by the nodes are not part of the model; the
      lines printed by [main] are. *)

From Stdlib Require Import QArith Ascii.
From stdpp Require Import base option list strings gmap pretty.

Open Scope string_scope.
Open Scope list_scope.

(** ** Text helpers (Python [str] methods used by the source) *)

Module Text.

(** [chr(10)] *)
Definition nl : string := String (ascii_of_nat 10) "".

(** [s * n] *)
Fixpoint repeat_str (s : string) (n : nat) : string :=
  match n with
  | O => ""
  | S n' => s +:+ repeat_str s n'
  end.

(** [sep.join(parts)] *)
Fixpoint join (sep : string) (parts : list string) : string :=
  match parts with
  | [] => ""
  | [p] => p
  | p :: rest => p +:+ sep +:+ join sep rest
  end.

Definition is_lower (c : ascii) : bool :=
  let n := nat_of_ascii c in (97 <=? n)%nat && (n <=? 122)%nat.

Definition is_upper (c : ascii) : bool :=
  let n := nat_of_ascii c in (65 <=? n)%nat && (n <=? 90)%nat.

Definition char_upper (c : ascii) : ascii :=
  if is_lower c then ascii_of_nat (nat_of_ascii c - 32) else c.

Definition char_lower (c : ascii) : ascii :=
  if is_upper c then ascii_of_nat (nat_of_ascii c + 32) else c.

(** [s.isascii()]: every character is below [0x80]. *)
Fixpoint is_ascii (s : string) : bool :=
  match s with
  | EmptyString => true
  | String c s' => (nat_of_ascii c <? 128)%nat && is_ascii s'
  end.

(** The case mappings of the Unicode character database, as [str.upper],
    [str.lower] and [str.title] apply them to a whole string.  They are
    consulted for text that is not ASCII only. *)
Record Unicode : Type := mkUnicode {
  unicode_upper : string -> string;
  unicode_lower : string -> string;
  unicode_title : string -> string
}.

(** [s.upper()] for ASCII [s] *)
Fixpoint ascii_upper (s : string) : string :=
  match s with
  | EmptyString => EmptyString
  | String c s' => String (char_upper c) (ascii_upper s')
  end.

(** [s.lower()] for ASCII [s] *)
Fixpoint ascii_lower (s : string) : string :=
  match s with
  | EmptyString => EmptyString
  | String c s' => String (char_lower c) (ascii_lower s')
  end.

(** [s.title()] for ASCII [s]: a cased character is upper-cased when the
    character before it is not cased and lower-cased otherwise. *)
Fixpoint title_from (previous_is_cased : bool) (s : string) : string :=
  match s with
  | EmptyString => EmptyString
  | String c s' =>
      if is_lower c || is_upper c then
        String (if previous_is_cased then char_lower c else char_upper c)
               (title_from true s')
      else String c (title_from false s')
  end.

Definition ascii_title (s : string) : string := title_from false s.

(** [s.upper()] *)
Definition upper (U : Unicode) (s : string) : string :=
  if is_ascii s then ascii_upper s else unicode_upper U s.

(** [s.lower()] *)
Definition lower (U : Unicode) (s : string) : string :=
  if is_ascii s then ascii_lower s else unicode_lower U s.

(** [s.title()] *)
Definition title (U : Unicode) (s : string) : string :=
  if is_ascii s then ascii_title s else unicode_title U s.

(** [bool(s)] for a string *)
Definition nonempty (s : string) : bool :=
  match s with EmptyString => false | String _ _ => true end.



(** [s.startswith(p)] *)
Fixpoint starts_with (p s : string) : bool :=
  match p, s with
  | EmptyString, _ => true
  | String a p', String b s' => Ascii.eqb a b && starts_with p' s'
  | String _ _, EmptyString => false
  end.

(** [needle in s] *)
Fixpoint contains (needle s : string) : bool :=
  starts_with needle s ||
  match s with
  | EmptyString => false
  | String _ s' => contains needle s'
  end.

(** The characters [c] with [c.isspace()], by the length of their UTF-8
    encoding.  One byte: tab to carriage return, the four separators [0x1c]
    to [0x1f], and the space. *)
Definition is_space (c : ascii) : bool :=
  let n := nat_of_ascii c in
  ((9 <=? n)%nat && (n <=? 13)%nat) || ((28 <=? n)%nat && (n <=? 32)%nat).

(** Two bytes: [U+0085] and [U+00A0]. *)
Definition is_space2 (c1 c2 : ascii) : bool :=
  let n1 := nat_of_ascii c1 in
  let n2 := nat_of_ascii c2 in
  (n1 =? 194)%nat && ((n2 =? 133)%nat || (n2 =? 160)%nat).

(** Three bytes: [U+1680], [U+2000] to [U+200A], [U+2028], [U+2029],
    [U+202F], [U+205F] and [U+3000]. *)
Definition is_space3 (c1 c2 c3 : ascii) : bool :=
  let n1 := nat_of_ascii c1 in
  let n2 := nat_of_ascii c2 in
  let n3 := nat_of_ascii c3 in
  ((n1 =? 225)%nat && (n2 =? 154)%nat && (n3 =? 128)%nat)
  || ((n1 =? 226)%nat && (n2 =? 128)%nat
      && (((128 <=? n3)%nat && (n3 <=? 138)%nat)
          || (n3 =? 168)%nat || (n3 =? 169)%nat || (n3 =? 175)%nat))
  || ((n1 =? 226)%nat && (n2 =? 129)%nat && (n3 =? 159)%nat)
  || ((n1 =? 227)%nat && (n2 =? 128)%nat && (n3 =? 128)%nat).

(** [s.lstrip()]: the leading white-space characters are dropped. *)
Fixpoint lstrip (s : string) : string :=
  match s with
  | EmptyString => EmptyString
  | String c1 s1 =>
      if is_space c1 then lstrip s1
      else
        match s1 with
        | EmptyString => s
        | String c2 s2 =>
            if is_space2 c1 c2 then lstrip s2
            else
              match s2 with
              | EmptyString => s
              | String c3 s3 => if is_space3 c1 c2 c3 then lstrip s3 else s
              end
        end
  end.

(** Every character of [s] is white space. *)
Definition all_space (s : string) : bool := negb (nonempty (lstrip s)).

(** [s.rstrip()]: the text is cut where its white-space tail begins. *)
Fixpoint rstrip (s : string) : string :=
  match s with
  | EmptyString => EmptyString
  | String c s' => if all_space s then EmptyString else String c (rstrip s')
  end.

(** [s.strip()] *)
Definition strip (s : string) : string := rstrip (lstrip s).

End Text.

(** ** Outcomes of calls that may raise *)

Inductive outcome (A : Type) : Type :=
| Returned (a : A)
| Raised (msg : string).

Arguments Returned {A} a.
Arguments Raised {A} msg.

#[global] Instance outcome_ret : MRet outcome := @Returned.

#[global] Instance outcome_bind : MBind outcome := fun A B k o =>
  match o with
  | Returned a => k a
  | Raised msg => Raised msg
  end.

(** ** Data model *)

(** A value stored in the stock dictionary. *)
Inductive scalar : Type :=
| SNone
| SNum (q : Q)
| SStr (s : string).

(** The stock dictionary ([Dict[str, Any]]). *)
Abbreviation stock := (gmap string scalar).

(** The keys of a news article that the orchestrator reads; [None] is a
    missing key. *)
Record article : Type := Article {
  headline : option string;
  source : option string;
  category : option string;
  sentiment_score : option Q
}.

(** [AIMessage(content=...)] *)
Record message : Type := AIMessage { content : string }.

(** Modelled from the spec: the aggregate state [AgentState] of
    [src/state/shared_state.py], which is not part of the sources at hand; its
    fields are the keys the nodes of [supervisor.py] read and write. *)
Record AgentState : Type := mkState {
  company_name : string;
  news_data : option (list article);
  stock_data : option stock;
  analysis : option string;
  risk_factors : option (list string);
  final_report : option string;
  current_agent : option string;
  error : option string;
  messages : list message
}.

(** A node's return dictionary: [Some v] when the key is present. *)
Record Update : Type := mkUpdate {
  upd_news_data : option (list article);
  upd_stock_data : option stock;
  upd_analysis : option string;
  upd_risk_factors : option (list string);
  upd_final_report : option string;
  upd_current_agent : option string;
  upd_error : option string;
  upd_messages : option (list message)
}.

(** [{}] *)
Definition empty_update : Update :=
  mkUpdate None None None None None None None None.

(** [bool(d)] for a return dictionary: it has at least one key. *)
Definition update_nonempty (u : Update) : bool :=
  bool_decide (is_Some (upd_news_data u)) || bool_decide (is_Some (upd_stock_data u))
  || bool_decide (is_Some (upd_analysis u)) || bool_decide (is_Some (upd_risk_factors u))
  || bool_decide (is_Some (upd_final_report u)) || bool_decide (is_Some (upd_current_agent u))
  || bool_decide (is_Some (upd_error u)) || bool_decide (is_Some (upd_messages u)).

(** Python truth tests on optional values. *)
Definition truthy_str (o : option string) : bool :=
  match o with Some s => Text.nonempty s | None => false end.

Definition truthy_list {A} (o : option (list A)) : bool :=
  match o with Some (_ :: _) => true | _ => false end.

Definition truthy_dict (o : option stock) : bool :=
  match o with Some d => negb (Nat.eqb (size d) 0) | None => false end.

(** [key in d] *)
Definition has_key (key : string) (d : stock) : bool :=
  bool_decide (is_Some (d !! key)).

(** Modelled from the spec: [create_initial_state] of
    [src/state/shared_state.py]: a fresh state seeded with the run's subject,
    every other field null and the event log empty. *)
Definition create_initial_state (company : string) : AgentState :=
  mkState company None None None None None None None [].

(** The [replace] policy: a key present in the update overwrites the old
    value, an absent key leaves it. *)
Definition replace_by {A} (new old : option A) : option A :=
  match new with
  | Some v => Some v
  | None => old
  end.

(** Modelled from the spec: the merge engine (section 4.1), that is the
    per-field policies declared with [AgentState]: the event log appends,
    every other field is replaced, keys absent from the update are left
    untouched. *)
Definition merge (current : AgentState) (partial : Update) : AgentState :=
  {| company_name := company_name current;
     news_data := replace_by (upd_news_data partial) (news_data current);
     stock_data := replace_by (upd_stock_data partial) (stock_data current);
     analysis := replace_by (upd_analysis partial) (analysis current);
     risk_factors := replace_by (upd_risk_factors partial) (risk_factors current);
     final_report := replace_by (upd_final_report partial) (final_report current);
     current_agent := replace_by (upd_current_agent partial) (current_agent current);
     error := replace_by (upd_error partial) (error current);
     messages := messages current ++ default [] (upd_messages partial) |}.

(** Two updates applied as one batch: the later replacement wins, the log
    entries keep their order. *)
Definition batch (first second : Update) : Update :=
  {| upd_news_data := replace_by (upd_news_data second) (upd_news_data first);
     upd_stock_data := replace_by (upd_stock_data second) (upd_stock_data first);
     upd_analysis := replace_by (upd_analysis second) (upd_analysis first);
     upd_risk_factors := replace_by (upd_risk_factors second) (upd_risk_factors first);
     upd_final_report := replace_by (upd_final_report second) (upd_final_report first);
     upd_current_agent := replace_by (upd_current_agent second) (upd_current_agent first);
     upd_error := replace_by (upd_error second) (upd_error first);
     upd_messages :=
       match upd_messages first, upd_messages second with
       | None, None => None
       | m1, m2 => Some (default [] m1 ++ default [] m2)
       end |}.

(** ** Collaborators

    The four LangChain tools are called through [tool.invoke]; each may raise.
    Their bodies draw random numbers, read the network and format floats, so
    they are taken as given, as are the field lines of
    [format_stock_for_summary], which print floats, and the Unicode case
    mappings.  A run calls each tool at most once, so a function of the
    arguments describes what the tool does in that run. *)

(** The keys of the risk analyser's result that [analyze_data_directly]
    reads. *)
Record RiskResult : Type := mkRisk {
  all_risks : option (list string);
  risk_level : option string
}.

Record Tools : Type := mkTools {
  news_fetcher_tool : string -> outcome (list article);
  stock_data_tool : string -> outcome stock;
  summary_generator_tool : string -> string -> string -> outcome string;
  risk_analyzer_tool :
    string -> option (list article) -> option stock -> outcome RiskResult;
  render_stock_fields : stock -> string;
  unicode_data : Text.Unicode
}.

(** The dictionary returned by [collect_data_directly]. *)
Record CollectResult : Type := mkCollect {
  cr_news_data : list article;
  cr_stock_data : stock
}.

(** The dictionary returned by [analyze_data_directly]. *)
Record AnalysisResult : Type := mkAnalysis {
  ar_analysis : string;
  ar_risk_factors : list string;
  ar_risk_level : string
}.

(** The binary64 number written [0.2] in the source. *)
Definition float_0_2 : Q := Qmake 3602879701896397 18014398509481984.

(** [a > b] and [a < b] on floats *)
Definition Qgtb (a b : Q) : bool := negb (Qle_bool a b).
Definition Qltb (a b : Q) : bool := negb (Qle_bool b a).

Section Workflow.

Context (T : Tools).

(** *** [src/tools/summary_generator.py] *)

Definition sentiment_word (a : article) : string :=
  if Qgtb (default 0%Q (sentiment_score a)) float_0_2 then "positive"
  else if Qltb (default 0%Q (sentiment_score a)) (Qopp float_0_2) then "negative"
  else "neutral".

Definition format_news_for_summary (news_data : option (list article)) : string :=
  if negb (truthy_list news_data) then "No recent news available."
  else
    Text.join Text.nl
      (map (fun a =>
              "- [" +:+ Text.upper (unicode_data T) (default "general" (category a))
              +:+ "] "
              +:+ default "N/A" (headline a) +:+ " "
              +:+ "(Source: " +:+ default "Unknown" (source a)
              +:+ ", Sentiment: " +:+ sentiment_word a +:+ ")")
           (default [] news_data)).

(** [stock_data.get(key, 0) > 0]: a number is compared, a missing key counts
    as [0], and [None] or a string raises [TypeError] with the text CPython
    gives it. *)
Definition is_positive (key : string) (stock_data : stock) : outcome bool :=
  match stock_data !! key with
  | None => Returned (Qgtb 0 0)
  | Some (SNum q) => Returned (Qgtb q 0)
  | Some SNone =>
      Raised "'>' not supported between instances of 'NoneType' and 'int'"
  | Some (SStr _) =>
      Raised "'>' not supported between instances of 'str' and 'int'"
  end.

(** The comparisons of [format_market_cap] on [stock_data.get("market_cap")]:
    [None] is answered before any comparison, a number is compared, a string
    raises [TypeError]. *)
Definition market_cap_comparable (stock_data : stock) : outcome unit :=
  match stock_data !! "market_cap" with
  | Some (SStr _) =>
      Raised "'>=' not supported between instances of 'str' and 'int'"
  | _ => Returned ()
  end.

(** The two trends are computed first, the market cap is formatted while the
    text is put together.  [render_stock_fields] gives the lines below the
    title, in which the trend words and the formatted numbers stand. *)
Definition format_stock_for_summary (stock_data : option stock) : outcome string :=
  match stock_data with
  | Some d =>
      if negb (truthy_dict stock_data) || has_key "error" d
      then Returned "Stock data unavailable."
      else
        daily_up ← is_positive "daily_change_percent" d;
        monthly_up ← is_positive "monthly_change_percent" d;
        _ ← market_cap_comparable d;
        Returned ("Stock Performance Summary:" +:+ Text.nl
                  +:+ render_stock_fields T d)
  | None => Returned "Stock data unavailable."
  end.

(** *** [src/agents/data_collector.py] *)

Definition collect_data_directly (company_name : string) : outcome CollectResult :=
  news_data ← news_fetcher_tool T company_name;
  stock_data ← stock_data_tool T company_name;
  mret (mkCollect news_data stock_data).

(** *** [src/agents/analyst.py] *)

Definition analyze_data_directly (company_name : string)
    (news_data : option (list article)) (stock_data : option stock)
  : outcome AnalysisResult :=
  let news_summary := format_news_for_summary news_data in
  stock_summary ← format_stock_for_summary stock_data;
  analysis ← summary_generator_tool T company_name news_summary stock_summary;
  risk_result ← risk_analyzer_tool T company_name news_data stock_data;
  mret (mkAnalysis analysis
                   (default [] (all_risks risk_result))
                   (default "UNKNOWN" (risk_level risk_result))).

(** *** [src/orchestrator/supervisor.py]: the three nodes *)

Definition data_collector_node (state : AgentState) : Update :=
  let company_name := company_name state in
  match collect_data_directly company_name with
  | Returned result =>
      let news_count :=
        match cr_news_data result with
        | [] => 0
        | _ :: _ => length (cr_news_data result)
        end in
      {| upd_news_data := Some (cr_news_data result);
         upd_stock_data := Some (cr_stock_data result);
         upd_analysis := None;
         upd_risk_factors := None;
         upd_final_report := None;
         upd_current_agent := Some "data_collector";
         upd_error := None;
         upd_messages :=
           Some [AIMessage ("Collected " +:+ pretty news_count
                            +:+ " news articles and stock data for "
                            +:+ company_name)] |}
  | Raised e =>
      {| upd_news_data := None;
         upd_stock_data := None;
         upd_analysis := None;
         upd_risk_factors := None;
         upd_final_report := None;
         upd_current_agent := Some "data_collector";
         upd_error := Some e;
         upd_messages := Some [AIMessage ("Error collecting data: " +:+ e)] |}
  end.

Definition analyst_node (state : AgentState) : Update :=
  let company_name := company_name state in
  let news_data := news_data state in
  let stock_data := stock_data state in
  match analyze_data_directly company_name news_data stock_data with
  | Returned result =>
      let risk_count := length (ar_risk_factors result) in
      {| upd_news_data := None;
         upd_stock_data := None;
         upd_analysis := Some (ar_analysis result);
         upd_risk_factors := Some (ar_risk_factors result);
         upd_final_report := None;
         upd_current_agent := Some "analyst";
         upd_error := None;
         upd_messages :=
           Some [AIMessage ("Completed analysis with " +:+ pretty risk_count
                            +:+ " risk factors identified")] |}
  | Raised e =>
      {| upd_news_data := None;
         upd_stock_data := None;
         upd_analysis := None;
         upd_risk_factors := None;
         upd_final_report := None;
         upd_current_agent := Some "analyst";
         upd_error := Some e;
         upd_messages := Some [AIMessage ("Error analyzing data: " +:+ e)] |}
  end.

(** ['='*60] *)
Definition rule : string := Text.repeat_str "=" 60.

Definition header_block (company_name : string) : string :=
  Text.nl +:+ rule +:+ Text.nl
  +:+ "COMPANY INTELLIGENCE REPORT: "
  +:+ Text.upper (unicode_data T) company_name +:+ Text.nl
  +:+ rule +:+ Text.nl.

Definition stock_block (stock_summary : string) : string :=
  Text.nl +:+ "## 📈 Stock Performance" +:+ Text.nl
  +:+ stock_summary +:+ Text.nl.

Definition sentiment_icon (a : article) : string :=
  if Qgtb (default 0%Q (sentiment_score a)) float_0_2 then "🟢"
  else if Qltb (default 0%Q (sentiment_score a)) (Qopp float_0_2) then "🔴"
  else "🟡".

(** The two lines appended for one article. *)
Definition article_lines (a : article) : list string :=
  [ "  " +:+ sentiment_icon a +:+ " " +:+ default "N/A" (headline a);
    "     Source: " +:+ default "Unknown" (source a) +:+ " | "
    +:+ Text.title (unicode_data T) (default "general" (category a)) ].

Definition news_block (news_lines : list string) : string :=
  Text.nl +:+ "## 📰 Recent News Headlines" +:+ Text.nl
  +:+ Text.join Text.nl news_lines +:+ Text.nl.

Definition analysis_block (analysis : string) : string :=
  Text.nl +:+ "## 💡 Market Analysis" +:+ Text.nl
  +:+ analysis +:+ Text.nl.

Definition risk_block (risk_lines : list string) : string :=
  Text.nl +:+ "## ⚠️ Risk Factors" +:+ Text.nl
  +:+ Text.join Text.nl risk_lines +:+ Text.nl.

Definition footer_block : string :=
  Text.nl +:+ rule +:+ Text.nl
  +:+ "DISCLAIMER: This report is generated for informational purposes " +:+ Text.nl
  +:+ "only and should not be considered as financial advice. Always " +:+ Text.nl
  +:+ "conduct your own research and consult with qualified financial " +:+ Text.nl
  +:+ "professionals before making investment decisions." +:+ Text.nl
  +:+ rule +:+ Text.nl.

(** The list [report_sections] when the node joins it; formatting the stock
    summary may raise, and the node does not catch it. *)
Definition report_sections (state : AgentState) : outcome (list string) :=
  let company_name := company_name state in
  let news_data := news_data state in
  let stock_data := stock_data state in
  let analysis := analysis state in
  let risk_factors := risk_factors state in
  let report_sections := [] in
  let report_sections := report_sections ++ [header_block company_name] in
  report_sections ←
    (if truthy_dict stock_data && negb (has_key "error" (default ∅ stock_data))
     then
       stock_summary ← format_stock_for_summary stock_data;
       Returned (report_sections ++ [stock_block stock_summary])
     else Returned report_sections);
  let report_sections :=
    if truthy_list news_data
    then
      let news_lines := flat_map article_lines (take 5 (default [] news_data)) in
      report_sections ++ [news_block news_lines]
    else report_sections in
  let report_sections :=
    if truthy_str analysis
    then report_sections ++ [analysis_block (default "" analysis)]
    else report_sections in
  let report_sections :=
    if truthy_list risk_factors
    then
      let risk_lines := map (fun risk => "  ⚠️ " +:+ risk) (default [] risk_factors) in
      report_sections ++ [risk_block risk_lines]
    else report_sections in
  Returned (report_sections ++ [footer_block]).

Definition report_generator_node (state : AgentState) : outcome Update :=
  report_sections ← report_sections state;
  let final_report := Text.join Text.nl report_sections in
  Returned
    {| upd_news_data := None;
       upd_stock_data := None;
       upd_analysis := None;
       upd_risk_factors := None;
       upd_final_report := Some final_report;
       upd_current_agent := Some "report_generator";
       upd_error := None;
       upd_messages := Some [AIMessage "Final report generated"] |}.

(** *** The router *)

Definition should_continue (state : AgentState) : string :=
  let current_agent := default "" (current_agent state) in
  let error := error state in
  if truthy_str error then "end"
  else if String.eqb current_agent "data_collector" then "analyst"
  else if String.eqb current_agent "analyst" then "report_generator"
  else "end".

End Workflow.

(** ** The graph library, as far as the workflow uses it

    [StateGraph] collects nodes, an entry point, conditional edges (a path
    function and a map from its results to targets) and plain edges.  A
    compiled graph runs the entry node, merges the node's return dictionary
    into the state, asks the node's outgoing edge for the next target on the
    merged state, and goes on until [END].  An exception a node does not
    catch ends the run and reaches the caller of [stream].  [stream] yields
    one dictionary per executed node, [{node_name: node_output}], which is
    the shape [run_intelligence_workflow] takes apart. *)

Inductive target : Type :=
| ToNode (name : string)
| END.

Record StateGraph : Type := mkGraph {
  g_nodes : list (string * (AgentState -> outcome Update));
  g_entry_point : option string;
  g_conditional_edges :
    list (string * ((AgentState -> string) * list (string * target)));
  g_edges : list (string * target)
}.

Definition empty_graph : StateGraph := mkGraph [] None [] [].

Definition add_node (name : string) (action : AgentState -> outcome Update)
    (g : StateGraph) : StateGraph :=
  mkGraph (g_nodes g ++ [(name, action)]) (g_entry_point g)
          (g_conditional_edges g) (g_edges g).

Definition set_entry_point (name : string) (g : StateGraph) : StateGraph :=
  mkGraph (g_nodes g) (Some name) (g_conditional_edges g) (g_edges g).

Definition add_conditional_edges (src : string) (path : AgentState -> string)
    (path_map : list (string * target)) (g : StateGraph) : StateGraph :=
  mkGraph (g_nodes g) (g_entry_point g)
          (g_conditional_edges g ++ [(src, (path, path_map))]) (g_edges g).

Definition add_edge (src : string) (dst : target) (g : StateGraph) : StateGraph :=
  mkGraph (g_nodes g) (g_entry_point g) (g_conditional_edges g)
          (g_edges g ++ [(src, dst)]).

(** [d.get(key)] on a dictionary kept as an association list *)
Fixpoint assoc {V} (key : string) (d : list (string * V)) : option V :=
  match d with
  | [] => None
  | (k, v) :: rest => if String.eqb k key then Some v else assoc key rest
  end.

(** The target chosen after [node] has run and its output has been merged. *)
Definition next_target (g : StateGraph) (node : string) (state : AgentState)
  : outcome target :=
  match assoc node (g_conditional_edges g) with
  | Some (path, path_map) =>
      match assoc (path state) path_map with
      | Some t => Returned t
      | None => Raised ("KeyError: " +:+ path state)
      end
  | None =>
      match assoc node (g_edges g) with
      | Some t => Returned t
      | None => Raised ("dead end: " +:+ node)
      end
  end.

(** One streamed item: [{node_name: node_output}]. *)
Abbreviation chunk := (list (string * Update)).

(** The default bound on the number of steps of one run. *)
Definition recursion_limit : nat := 25.

(** The run from [node] on: the streamed items and the state the graph ends
    with. *)
Fixpoint run_from (g : StateGraph) (fuel : nat) (node : string)
    (state : AgentState) : outcome (list chunk * AgentState) :=
  match fuel with
  | O => Raised "GraphRecursionError"
  | S fuel' =>
      match assoc node (g_nodes g) with
      | None => Raised ("unknown node: " +:+ node)
      | Some action =>
          output ← action state;
          let state' := merge state output in
          t ← next_target g node state';
          match t with
          | END => Returned ([[(node, output)]], state')
          | ToNode next =>
              rest ← run_from g fuel' next state';
              Returned ([(node, output)] :: rest.1, rest.2)
          end
      end
  end.

(** [app.stream(input, config)] together with the state left in the graph.
    The checkpointer is the [MemorySaver()] that
    [create_intelligence_workflow] has just created, so no checkpoint exists
    for any [thread_id] and the run starts from [input]. *)
Definition execute (g : StateGraph) (input : AgentState) (thread_id : string)
  : outcome (list chunk * AgentState) :=
  match g_entry_point g with
  | Some entry => run_from g recursion_limit entry input
  | None => Raised "no entry point"
  end.

Definition stream (g : StateGraph) (input : AgentState) (thread_id : string)
  : outcome (list chunk) :=
  r ← execute g input thread_id; Returned r.1.

(** The parsed command line of [src/main.py]. *)
Record Args : Type := mkArgs {
  arg_company : string;
  arg_thread_id : string;
  arg_verbose : bool
}.

(** What [main] prints. *)
Inductive printed : Type :=
| Line (text : string)
| DebugInfo (result : Update)
| Traceback.

(** What the operating system sees of a finished process. *)
Record Process : Type := mkProcess {
  stdout : list printed;
  exit_code : Z
}.

Section Run.

Context (T : Tools).

Definition create_intelligence_workflow : StateGraph :=
  let workflow := empty_graph in
  let workflow :=
    add_node "data_collector" (fun state => Returned (data_collector_node T state))
             workflow in
  let workflow :=
    add_node "analyst" (fun state => Returned (analyst_node T state)) workflow in
  let workflow := add_node "report_generator" (report_generator_node T) workflow in
  let workflow := set_entry_point "data_collector" workflow in
  let workflow :=
    add_conditional_edges "data_collector" should_continue
      [("analyst", ToNode "analyst"); ("end", END)] workflow in
  let workflow :=
    add_conditional_edges "analyst" should_continue
      [("report_generator", ToNode "report_generator"); ("end", END)] workflow in
  let workflow := add_edge "report_generator" END workflow in
  workflow.

(** [run_intelligence_workflow]: [final_state] is the last streamed item;
    the first dictionary among its values is returned, and [{}] when
    nothing was streamed. *)
Definition run_intelligence_workflow (company_name thread_id : string)
  : outcome Update :=
  let app := create_intelligence_workflow in
  let initial_state := create_initial_state company_name in
  chunks ← stream app initial_state thread_id;
  let final_state := last chunks in
  match final_state with
  | Some ((node_name, node_state) :: _) => Returned node_state
  | Some [] | None => Returned empty_update
  end.

(** The aggregate state the graph holds when the run is over. *)
Definition workflow_final_state (company_name thread_id : string)
  : outcome AgentState :=
  r ← execute create_intelligence_workflow
        (create_initial_state company_name) thread_id;
  Returned r.2.

(** The names of the nodes the run executed, in order. *)
Definition executed_nodes (company_name thread_id : string)
  : outcome (list string) :=
  chunks ← stream create_intelligence_workflow
             (create_initial_state company_name) thread_id;
  Returned (flat_map (map fst) chunks).

(** *** [src/main.py] *)

(** [main] after [parse_args]; [openai_api_key] is
    [os.getenv("OPENAI_API_KEY")].  [sys.exit(1)] ends the process with
    status 1; a [main] that returns ends it with status 0. *)
Definition main (args : Args) (openai_api_key : option string) : Process :=
  let warning :=
    if negb (truthy_str openai_api_key) then
      [ Line (Text.nl +:+ "⚠️  Warning: OPENAI_API_KEY not set.");
        Line "   The system will work with simulated data, but LLM-based agents won't function.";
        Line ("   Set your API key: export OPENAI_API_KEY='your-key-here'" +:+ Text.nl) ]
    else [] in
  match run_intelligence_workflow (arg_company args) (arg_thread_id args) with
  | Returned result =>
      if update_nonempty result && bool_decide (is_Some (upd_final_report result))
      then mkProcess (warning ++ [Line (default "" (upd_final_report result))]) 0
      else
        mkProcess
          (warning
           ++ [Line (Text.nl +:+ "❌ Error: Could not generate report")]
           ++ (if arg_verbose args && update_nonempty result
               then [DebugInfo result] else []))
          0
  | Raised e =>
      mkProcess
        (warning
         ++ [Line (Text.nl +:+ "❌ Error running workflow: " +:+ e)]
         ++ (if arg_verbose args then [Traceback] else []))
        1
  end.

End Run.

(** ** Concrete collaborators for the scenarios *)

Definition sample_news : list article :=
  [ Article (Some "Acme Corp Shares Rally on Strong Market Performance")
            (Some "Reuters") (Some "market") (Some (Qmake 61 100));
    Article (Some "Acme Corp Misses Earnings Estimates, Stock Dips in After-Hours Trading")
            (Some "Bloomberg") (Some "earnings") (Some (Qmake (-45) 100)) ].

Definition sample_stock : stock :=
  {[ "ticker" := SStr "ACME"; "current_price" := SNum (Qmake 12345 100);
     "currency" := SStr "USD"; "pe_ratio" := SNone ]}.


(** Case mappings for the scenarios, whose texts are all ASCII. *)
Definition sample_unicode : Text.Unicode :=
  Text.mkUnicode Text.ascii_upper Text.ascii_lower Text.ascii_title.

(** Collaborators that all succeed. *)
Definition sample_tools : Tools :=
  {| news_fetcher_tool := fun _ => Returned sample_news;
     stock_data_tool := fun _ => Returned sample_stock;
     summary_generator_tool := fun company _ _ =>
       Returned ("## Market Summary for " +:+ company);
     risk_analyzer_tool := fun _ _ _ =>
       Returned (mkRisk (Some ["Market volatility may affect stock performance"])
                        (Some "LOW"));
     render_stock_fields := fun _ => "- Current Price: $123.45 USD";
     unicode_data := sample_unicode |}.

(** What the two stages return with [sample_tools]. *)
Definition sample_collected : CollectResult := mkCollect sample_news sample_stock.

Definition sample_analysed : AnalysisResult :=
  mkAnalysis "## Market Summary for Acme Corp"
             ["Market volatility may affect stock performance"] "LOW".

(** A failure injected in the collection stage: the news tool raises an
    exception whose text is [msg]. *)
Definition inject_collection_failure (msg : string) (T : Tools) : Tools :=
  {| news_fetcher_tool := fun _ => Raised msg;
     stock_data_tool := stock_data_tool T;
     summary_generator_tool := summary_generator_tool T;
     risk_analyzer_tool := risk_analyzer_tool T;
     render_stock_fields := render_stock_fields T;
     unicode_data := unicode_data T |}.

(** A failure injected in the analysis stage: the summary tool raises an
    exception whose text is [msg]. *)
Definition inject_analysis_failure (msg : string) (T : Tools) : Tools :=
  {| news_fetcher_tool := news_fetcher_tool T;
     stock_data_tool := stock_data_tool T;
     summary_generator_tool := fun _ _ _ => Raised msg;
     risk_analyzer_tool := risk_analyzer_tool T;
     render_stock_fields := render_stock_fields T;
     unicode_data := unicode_data T |}.

(** ** Reading a report back

    The six kinds of block of a report, in the order of the layout, and a
    reader that tells the kind of a block from the text it opens with. *)

Inductive block_kind : Type :=
| Header
| StockBlock
| NewsBlock
| AnalysisBlock
| RiskBlock
| Footer.

Definition layout_order : list block_kind :=
  [Header; StockBlock; NewsBlock; AnalysisBlock; RiskBlock; Footer].

Definition block_kind_of (text : string) : option block_kind :=
  if Text.starts_with
       (Text.nl +:+ rule +:+ Text.nl +:+ "COMPANY INTELLIGENCE REPORT: ") text
  then Some Header
  else if Text.starts_with (Text.nl +:+ "## 📈 Stock Performance" +:+ Text.nl) text
  then Some StockBlock
  else if Text.starts_with (Text.nl +:+ "## 📰 Recent News Headlines" +:+ Text.nl) text
  then Some NewsBlock
  else if Text.starts_with (Text.nl +:+ "## 💡 Market Analysis" +:+ Text.nl) text
  then Some AnalysisBlock
  else if Text.starts_with (Text.nl +:+ "## ⚠️ Risk Factors" +:+ Text.nl) text
  then Some RiskBlock
  else if Text.starts_with (Text.nl +:+ rule +:+ Text.nl +:+ "DISCLAIMER: ") text
  then Some Footer
  else None.

(** The source data of a block is there: the field is neither null nor
    empty.  The header and the footer have no source data. *)
Definition has_source_data (state : AgentState) (k : block_kind) : bool :=
  match k with
  | Header | Footer => true
  | StockBlock => truthy_dict (stock_data state)
  | NewsBlock => truthy_list (news_data state)
  | AnalysisBlock => truthy_str (analysis state)
  | RiskBlock => truthy_list (risk_factors state)
  end.

(** The stock dictionary is an error descriptor: it has an ["error"] key. *)
Definition stock_is_error (state : AgentState) : bool :=
  has_key "error" (default ∅ (stock_data state)).

(** The blocks the generator writes: those with source data, the stock block
    only when the stock dictionary is not an error descriptor. *)
Definition block_written (state : AgentState) (k : block_kind) : bool :=
  match k with
  | StockBlock => has_source_data state k && negb (stock_is_error state)
  | _ => has_source_data state k
  end.




(** An exception that carries no text, such as [MemoryError()]. *)
Definition silent_failure : string := "".

(** ** The repository's tools

    [src/tools/stock_data.py], [src/tools/news_fetcher.py],
    [src/tools/summary_generator.py] and [src/tools/risk_analyzer.py].  The
    parts that draw random numbers, read the network or compute with floats
    are taken as given; everything around them is modelled. *)

Record Sources : Type := mkSources {
  (** [generate_simulated_news(company_name, num_articles=5)]: random *)
  generate_simulated_news : string -> outcome (list article);
  (** [fetch_real_stock_data(ticker)]: network; it catches every exception
      and returns [None] then *)
  fetch_real_stock_data : string -> option stock;
  (** [generate_simulated_stock_data(company_name)]: random *)
  generate_simulated_stock_data : string -> outcome stock;
  (** the numeric checks of [analyze_stock_risks] behind its guard: float
      products and float formatting; they raise on a value that is no
      number *)
  stock_risk_checks : stock -> outcome (list string);
  (** the field lines of [format_stock_for_summary], below its title *)
  stock_fields_template : stock -> string;
  (** the case mappings of Unicode *)
  unicode_tables : Text.Unicode
}.

(** The dictionary returned by the risk analyser. *)
Record RiskReport : Type := mkRiskReport {
  rr_company_name : string;
  rr_risk_level : string;
  rr_risk_description : option string;
  rr_risk_count : option Z;
  rr_risk_categories : option (list (string * list string));
  rr_all_risks : option (list string);
  rr_disclaimer : option string;
  rr_error : option string
}.

(** The two keys of it that [analyze_data_directly] reads. *)
Definition risk_result_of (r : RiskReport) : RiskResult :=
  mkRisk (rr_all_risks r) (Some (rr_risk_level r)).

Module Repo.

(** *** [src/tools/stock_data.py] *)

Definition TICKER_MAPPING : list (string * string) :=
  [ ("apple", "AAPL"); ("microsoft", "MSFT"); ("google", "GOOGL");
    ("alphabet", "GOOGL"); ("amazon", "AMZN"); ("meta", "META");
    ("facebook", "META"); ("tesla", "TSLA"); ("nvidia", "NVDA");
    ("netflix", "NFLX"); ("adobe", "ADBE"); ("salesforce", "CRM");
    ("oracle", "ORCL"); ("intel", "INTC"); ("amd", "AMD"); ("ibm", "IBM");
    ("cisco", "CSCO"); ("uber", "UBER"); ("airbnb", "ABNB");
    ("spotify", "SPOT") ].

Definition get_ticker_symbol (U : Text.Unicode) (company_name : string) : string :=
  let normalized := Text.strip (Text.lower U company_name) in
  default (Text.upper U company_name) (assoc normalized TICKER_MAPPING).

(** *** [src/tools/summary_generator.py] *)

(** The f-string of [summary_generator_tool] before [strip()]. *)
Definition summary_template (company_name news_summary stock_summary : string)
  : string :=
  Text.nl
  +:+ "## Market Summary for " +:+ company_name +:+ Text.nl
  +:+ Text.nl
  +:+ "### Overview" +:+ Text.nl
  +:+ "This analysis provides a comprehensive view of " +:+ company_name +:+ "'s current market position " +:+ Text.nl
  +:+ "based on recent news coverage and stock performance data." +:+ Text.nl
  +:+ Text.nl
  +:+ "### Recent News Highlights" +:+ Text.nl
  +:+ news_summary +:+ Text.nl
  +:+ Text.nl
  +:+ "### Stock Performance" +:+ Text.nl
  +:+ stock_summary +:+ Text.nl
  +:+ Text.nl
  +:+ "### Key Takeaways" +:+ Text.nl
  +:+ "Based on the available data, here are the key observations:" +:+ Text.nl
  +:+ Text.nl
  +:+ "1. **Market Position**: " +:+ company_name +:+ " is actively covered in financial news, " +:+ Text.nl
  +:+ "   indicating significant market interest and activity." +:+ Text.nl
  +:+ Text.nl
  +:+ "2. **Price Action**: The stock's recent performance should be evaluated in the " +:+ Text.nl
  +:+ "   context of broader market conditions and sector trends." +:+ Text.nl
  +:+ Text.nl
  +:+ "3. **News Sentiment**: Recent headlines provide insights into the company's " +:+ Text.nl
  +:+ "   strategic direction and market perception." +:+ Text.nl
  +:+ Text.nl
  +:+ "*Note: This summary is generated for informational purposes only and should not " +:+ Text.nl
  +:+ "be considered as financial advice. Always conduct thorough research and consult " +:+ Text.nl
  +:+ "with financial professionals before making investment decisions.*" +:+ Text.nl.

Definition summary_generator_tool (company_name news_summary stock_summary : string)
  : string :=
  Text.strip (summary_template company_name news_summary stock_summary).

(** *** [src/tools/risk_analyzer.py] *)

Definition negative_sentiment_risk : string :=
  "Predominantly negative news sentiment may impact investor confidence".

Definition earnings_risk : string :=
  "Recent earnings reports show concerning trends or missed expectations".

Definition leadership_risk : string :=
  "Leadership changes may create short-term uncertainty".

Definition limited_coverage_risk : string :=
  "Limited news coverage may indicate reduced market visibility".

Definition stock_unavailable_risk : string :=
  "Unable to assess stock-related risks due to data unavailability".

(** [n.get("sentiment_score", 0) < -0.2] *)
Definition is_negative (n : article) : bool :=
  Qltb (default 0%Q (sentiment_score n)) (Qopp float_0_2).

Definition analyze_news_risks (news_data : list article) : list string :=
  let risks := [] in
  match news_data with
  | [] => risks ++ [limited_coverage_risk]
  | _ :: _ =>
      let negative_count := length (List.filter is_negative news_data) in
      let risks :=
        if Qgtb (inject_Z (Z.of_nat negative_count))
                (inject_Z (Z.of_nat (length news_data)) / 2)%Q
        then risks ++ [negative_sentiment_risk] else risks in
      let categories := map (fun n => default "" (category n)) news_data in
      let risks :=
        if existsb (String.eqb "earnings") categories
        then
          if existsb (fun article =>
                        bool_decide (category article = Some "earnings")
                        && Qltb (default 0%Q (sentiment_score article)) 0%Q)
                     news_data
          then risks ++ [earnings_risk] else risks
        else risks in
      let risks :=
        if existsb (String.eqb "leadership") categories
        then risks ++ [leadership_risk] else risks in
      risks
  end.

Definition get_market_risks : list string :=
  [ "General market conditions and macroeconomic factors may impact performance";
    "Sector-specific trends could influence stock trajectory";
    "Regulatory changes in the technology sector remain a consideration" ].

Section WithSources.

Context (S : Sources).

Definition analyze_stock_risks (stock_data : stock) : outcome (list string) :=
  let risks := [] in
  if negb (truthy_dict (Some stock_data)) || has_key "error" stock_data
  then Returned (risks ++ [stock_unavailable_risk])
  else stock_risk_checks S stock_data.

(** The body of the [try]: it raises when the stock checks raise. *)
Definition risk_analysis (company_name : string)
    (news_data : option (list article)) (stock_data : option stock)
  : outcome RiskReport :=
  let all_risks := [] in
  let risk_categories := [] in
  let '(risk_categories, all_risks) :=
    if truthy_list news_data then
      let news_risks := analyze_news_risks (default [] news_data) in
      if truthy_list (Some news_risks)
      then (risk_categories ++ [("News & Sentiment Risks", news_risks)],
            all_risks ++ news_risks)
      else (risk_categories, all_risks)
    else (risk_categories, all_risks) in
  stock_risks ←
    (if truthy_dict stock_data
     then analyze_stock_risks (default ∅ stock_data)
     else Returned []);
  let '(risk_categories, all_risks) :=
    if truthy_list (Some stock_risks)
    then (risk_categories ++ [("Stock Performance Risks", stock_risks)],
          all_risks ++ stock_risks)
    else (risk_categories, all_risks) in
  let market_risks := get_market_risks in
  let risk_categories := risk_categories ++ [("General Market Risks", market_risks)] in
  let all_risks := all_risks ++ market_risks in
  let risk_count := (Z.of_nat (length all_risks) - Z.of_nat (length market_risks))%Z in
  let '(risk_level, risk_description) :=
    if (5 <=? risk_count)%Z
    then ("HIGH", "Multiple risk factors identified. Exercise caution.")
    else if (3 <=? risk_count)%Z
    then ("MODERATE",
          "Several risk factors present. Conduct thorough due diligence.")
    else ("LOW",
          "Relatively few specific risks identified. Standard investment considerations apply.") in
  Returned
    {| rr_company_name := company_name;
       rr_risk_level := risk_level;
       rr_risk_description := Some risk_description;
       rr_risk_count := Some (Z.of_nat (length all_risks));
       rr_risk_categories := Some risk_categories;
       rr_all_risks := Some all_risks;
       rr_disclaimer :=
         Some "This risk assessment is for informational purposes only and should not be considered financial advice.";
       rr_error := None |}.

Definition risk_analyzer_tool (company_name : string)
    (news_data : option (list article)) (stock_data : option stock)
  : RiskReport :=
  match risk_analysis company_name news_data stock_data with
  | Returned report => report
  | Raised e =>
      {| rr_company_name := company_name;
         rr_risk_level := "UNKNOWN";
         rr_risk_description := None;
         rr_risk_count := None;
         rr_risk_categories := None;
         rr_all_risks := None;
         rr_disclaimer := None;
         rr_error := Some ("Error analyzing risks: " +:+ e) |}
  end.

(** *** [src/tools/news_fetcher.py] *)

(** [{"error": ...}]: an article with none of the keys the report reads. *)
Definition error_article : article := Article None None None None.

Definition news_fetcher_tool (company_name : string) : list article :=
  match generate_simulated_news S company_name with
  | Returned news => news
  | Raised e => [error_article]
  end.

(** *** [src/tools/stock_data.py], continued *)

Definition stock_data_tool (company_name : string) : stock :=
  let ticker := get_ticker_symbol (unicode_tables S) company_name in
  let real_data := fetch_real_stock_data S ticker in
  if truthy_dict real_data then default ∅ real_data
  else
    match generate_simulated_stock_data S company_name with
    | Returned simulated => simulated
    | Raised e =>
        {[ "error" := SStr ("Failed to fetch stock data: " +:+ e);
           "company_name" := SStr company_name ]}
    end.

(** The four tools as the agents invoke them. *)
Definition tools : Tools :=
  mkTools (fun company_name => Returned (news_fetcher_tool company_name))
          (fun company_name => Returned (stock_data_tool company_name))
          (fun company_name news_summary stock_summary =>
             Returned (summary_generator_tool company_name news_summary stock_summary))
          (fun company_name news_data stock_data =>
             Returned (risk_result_of (risk_analyzer_tool company_name news_data stock_data)))
          (stock_fields_template S)
          (unicode_tables S).

End WithSources.

End Repo.



(** Sources for the scenarios: the news generator and the stock generator
    fail or succeed as told, the network lookup finds nothing. *)
Definition scenario_sources (news : outcome (list article)) (simulated : outcome stock)
  : Sources :=
  {| generate_simulated_news := fun _ => news;
     fetch_real_stock_data := fun _ => None;
     generate_simulated_stock_data := fun _ => simulated;
     stock_risk_checks := fun _ => Returned [];
     stock_fields_template := fun _ => "- Current Price: $123.45 USD";
     unicode_tables := sample_unicode |}.

(** * Properties *)

(** ** Text *)

Lemma append_assoc (a b c : string) : (a +:+ b) +:+ c = a +:+ (b +:+ c).
Proof.
  induction a as [|ch a IH]; [reflexivity|].
  change (String ch ((a +:+ b) +:+ c) = String ch (a +:+ (b +:+ c))).
  by rewrite IH.
Qed.


Lemma starts_with_append (p x : string) : Text.starts_with p (p +:+ x) = true.
Proof.
  induction p as [|ch p IH]; [reflexivity|].
  change (Ascii.eqb ch ch && Text.starts_with p (p +:+ x) = true).
  by rewrite Ascii.eqb_refl, IH.
Qed.




(** ** The report generator *)

Section ReportProperties.

Context (T : Tools).

(** The blocks between the stock block and the footer. *)
Lemma report_sections_shape (s : AgentState) :
  report_sections T s
  = stock_part ←
      (if block_written s StockBlock
       then
         stock_summary ← format_stock_for_summary T (stock_data s);
         Returned [stock_block stock_summary]
       else Returned []);
    Returned
      (header_block T (company_name s)
       :: (stock_part
           ++ (if block_written s NewsBlock
               then [news_block
                       (flat_map (article_lines T) (take 5 (default [] (news_data s))))]
               else [])
           ++ (if block_written s AnalysisBlock
               then [analysis_block (default "" (analysis s))] else [])
           ++ (if block_written s RiskBlock
               then [risk_block (map (fun risk => "  ⚠️ " +:+ risk)
                                     (default [] (risk_factors s)))]
               else []))
       ++ [footer_block]).
Proof.
  unfold report_sections, block_written, has_source_data, stock_is_error.
  destruct (truthy_dict (stock_data s) && negb (has_key "error" (default ∅ (stock_data s))));
    [destruct (format_stock_for_summary T (stock_data s)); [|reflexivity]|];
    cbn [mbind outcome_bind];
    destruct (truthy_list (news_data s));
    destruct (truthy_str (analysis s));
    destruct (truthy_list (risk_factors s)); reflexivity.
Qed.

(** Without usable stock data the formatter answers with its fixed
    sentence. *)
Lemma format_stock_unavailable (s : AgentState) :
  block_written s StockBlock = false ->
  format_stock_for_summary T (stock_data s) = Returned "Stock data unavailable.".
Proof.
  unfold block_written, has_source_data, stock_is_error, format_stock_for_summary.
  destruct (stock_data s) as [d|]; [|reflexivity].
  cbn [default from_option id].
  destruct (truthy_dict (Some d)), (has_key "error" d); cbn; congruence.
Qed.

(** The sections when the stock summary can be formatted. *)
Lemma report_sections_returned (s : AgentState) (stock_summary : string) :
  format_stock_for_summary T (stock_data s) = Returned stock_summary ->
  report_sections T s
  = Returned
      (header_block T (company_name s)
       :: ((if block_written s StockBlock then [stock_block stock_summary] else [])
           ++ (if block_written s NewsBlock
               then [news_block
                       (flat_map (article_lines T) (take 5 (default [] (news_data s))))]
               else [])
           ++ (if block_written s AnalysisBlock
               then [analysis_block (default "" (analysis s))] else [])
           ++ (if block_written s RiskBlock
               then [risk_block (map (fun risk => "  ⚠️ " +:+ risk)
                                     (default [] (risk_factors s)))]
               else []))
       ++ [footer_block]).
Proof.
  intros H. rewrite report_sections_shape, H.
  destruct (block_written s StockBlock); reflexivity.
Qed.

(** The formatter's exception leaves the node when the stock block is due. *)
Lemma report_sections_raised (s : AgentState) (msg : string) :
  block_written s StockBlock = true ->
  format_stock_for_summary T (stock_data s) = Raised msg ->
  report_sections T s = Raised msg.
Proof. intros Hw H. by rewrite report_sections_shape, Hw, H. Qed.

Lemma block_kind_of_header (c : string) :
  block_kind_of (header_block T c) = Some Header.
Proof. vm_compute. reflexivity. Qed.

Lemma block_kind_of_stock (text : string) :
  block_kind_of (stock_block text) = Some StockBlock.
Proof. vm_compute. reflexivity. Qed.

Lemma block_kind_of_news (news_lines : list string) :
  block_kind_of (news_block news_lines) = Some NewsBlock.
Proof. vm_compute. reflexivity. Qed.

Lemma block_kind_of_analysis (text : string) :
  block_kind_of (analysis_block text) = Some AnalysisBlock.
Proof. vm_compute. reflexivity. Qed.

Lemma block_kind_of_risk (risk_lines : list string) :
  block_kind_of (risk_block risk_lines) = Some RiskBlock.
Proof. vm_compute. reflexivity. Qed.

Lemma block_kind_of_footer : block_kind_of footer_block = Some Footer.
Proof. vm_compute. reflexivity. Qed.

(** Read back, the sections are the kinds of the layout that are written,
    in the order of the layout. *)
Lemma report_sections_kinds (s : AgentState) (sections : list string) :
  report_sections T s = Returned sections ->
  map block_kind_of sections
  = map Some (List.filter (block_written s) layout_order).
Proof.
  rewrite report_sections_shape. intros H.
  assert (exists stock_part,
             sections
             = header_block T (company_name s)
               :: (stock_part
                   ++ (if block_written s NewsBlock
                       then [news_block
                               (flat_map (article_lines T)
                                         (take 5 (default [] (news_data s))))]
                       else [])
                   ++ (if block_written s AnalysisBlock
                       then [analysis_block (default "" (analysis s))] else [])
                   ++ (if block_written s RiskBlock
                       then [risk_block (map (fun risk => "  ⚠️ " +:+ risk)
                                             (default [] (risk_factors s)))]
                       else []))
               ++ [footer_block]
             /\ map block_kind_of stock_part
                = if block_written s StockBlock then [Some StockBlock] else [])
    as (stock_part & -> & Hstock).
  { destruct (block_written s StockBlock).
    - destruct (format_stock_for_summary T (stock_data s)) as [text|]; [|discriminate].
      exists [stock_block text]. split; [|cbn [map]; by rewrite block_kind_of_stock].
      symmetry. injection H as H. exact H.
    - exists []. split; [|reflexivity]. symmetry. injection H as H. exact H. }
  unfold layout_order. cbn [List.filter].
  change (block_written s Header) with true.
  change (block_written s Footer) with true.
  cbn iota.
  cbn [map]. rewrite !map_app, Hstock, block_kind_of_header.
  destruct (block_written s StockBlock), (block_written s NewsBlock),
    (block_written s AnalysisBlock), (block_written s RiskBlock);
    cbn [map app];
    rewrite ?block_kind_of_news, ?block_kind_of_analysis, ?block_kind_of_risk,
      ?block_kind_of_footer;
    reflexivity.
Qed.



(** The node's output when the sections can be written. *)
Lemma report_generator_node_returned (s : AgentState) (sections : list string) :
  report_sections T s = Returned sections ->
  report_generator_node T s
  = Returned (mkUpdate None None None None (Some (Text.join Text.nl sections))
                (Some "report_generator") None
                (Some [AIMessage "Final report generated"])).
Proof. intros H. unfold report_generator_node. by rewrite H. Qed.


End ReportProperties.

(** ** The router *)

Lemma should_continue_after (s : AgentState) (node : string) :
  current_agent s = Some node ->
  should_continue s
  = if truthy_str (error s) then "end"
    else if String.eqb node "data_collector" then "analyst"
    else if String.eqb node "analyst" then "report_generator"
    else "end".
Proof. intros H. unfold should_continue. by rewrite H. Qed.

(** C3, as stated, fails for the initial marker: on the initial state the
    router answers ["end"], not the first stage. *)
Lemma initial_marker_counterexample :
  current_agent (create_initial_state "Acme Corp") = None
  /\ should_continue (create_initial_state "Acme Corp") = "end"
  /\ should_continue (create_initial_state "Acme Corp") <> "data_collector".
Proof. split; [reflexivity|]. split; [reflexivity|]. vm_compute. discriminate. Qed.

(** C3, amended: the router is this table.  After the data collector with no
    error it selects the analyst; after the analyst with no error it selects
    the report generator; with an error message that is not empty it selects
    the end for every marker; after the report generator it selects the end
    whatever the error field holds; and for the initial (absent) marker it
    selects the end as well, the first stage being chosen by the graph's
    entry point. *)
Theorem should_continue_table
    (company : string) (news : option (list article)) (stock_d : option stock)
    (analysis_text : option string) (risks : option (list string))
    (report : option string) (log : list message)
    (marker err : option string) (ch : ascii) (msg : string) :
  should_continue
    (mkState company news stock_d analysis_text risks report
             (Some "data_collector") None log) = "analyst"
  /\ should_continue
       (mkState company news stock_d analysis_text risks report
                (Some "analyst") None log) = "report_generator"
  /\ should_continue
       (mkState company news stock_d analysis_text risks report
                marker (Some (String ch msg)) log) = "end"
  /\ should_continue
       (mkState company news stock_d analysis_text risks report
                (Some "report_generator") err log) = "end"
  /\ should_continue
       (mkState company news stock_d analysis_text risks report
                None err log) = "end".
Proof.
  repeat split; try reflexivity.
  - unfold should_continue. cbn [error current_agent].
    destruct (truthy_str err); reflexivity.
  - unfold should_continue. cbn [error current_agent].
    destruct (truthy_str err); reflexivity.
Qed.

(** C4: the router's answer is fixed by the stage marker and the error field;
    two calls on the same state, or on states that agree on these two fields,
    give the same next stage. *)
Theorem should_continue_deterministic (s1 s2 : AgentState) :
  current_agent s1 = current_agent s2 ->
  error s1 = error s2 ->
  should_continue s1 = should_continue s2.
Proof. intros Hmarker Herror. unfold should_continue. by rewrite Hmarker, Herror. Qed.

Lemma should_continue_deterministic_witness :
  let s1 := mkState "Acme Corp" (Some sample_news) (Some sample_stock) None None None
                    (Some "data_collector") None [] in
  let s2 := mkState "Initech" None None (Some "text") None None
                    (Some "data_collector") None [AIMessage "entry"] in
  current_agent s1 = current_agent s2
  /\ error s1 = error s2
  /\ should_continue s1 = should_continue s2.
Proof.
  intros s1 s2. split; [reflexivity|]. split; [reflexivity|].
  apply (should_continue_deterministic s1 s2); reflexivity.
Defined.

(** ** The merge engine *)

(** C8: merging appends the update's entries to the end of the event log, in
    call order, and is associative there: two updates merged one after the
    other leave the same log, and the same state, as the two merged as one
    batch. *)
Theorem merge_append_associative (s : AgentState) (u1 u2 : Update) :
  messages (merge s u1) = messages s ++ default [] (upd_messages u1)
  /\ messages (merge (merge s u1) u2)
     = messages s ++ default [] (upd_messages u1) ++ default [] (upd_messages u2)
  /\ merge (merge s u1) u2 = merge s (batch u1 u2).
Proof.
  split; [reflexivity|]. split.
  - cbn [merge messages]. by rewrite <- app_assoc.
  - destruct s, u1 as [n1 st1 a1 r1 f1 c1 e1 m1], u2 as [n2 st2 a2 r2 f2 c2 e2 m2].
    unfold merge, batch.
    cbn [company_name news_data stock_data analysis risk_factors final_report
           current_agent error messages upd_news_data upd_stock_data upd_analysis
           upd_risk_factors upd_final_report upd_current_agent upd_error
           upd_messages].
    f_equal; try (by destruct n2, n1); try (by destruct st2, st1);
      try (by destruct a2, a1); try (by destruct r2, r1);
      try (by destruct f2, f1); try (by destruct c2, c1);
      try (by destruct e2, e1).
    destruct m1, m2; cbn [default]; by rewrite <- ?app_assoc, ?app_nil_r.
Qed.

Lemma truthy_str_is_Some (o : option string) : truthy_str o = true -> is_Some o.
Proof. destruct o; [eauto|discriminate]. Qed.

Lemma replace_by_None {A} (o : option A) : replace_by o None = o.
Proof. by destruct o. Qed.

(** ** The run *)

Section RunProperties.

Context (T : Tools).

Lemma data_collector_marker (s : AgentState) :
  current_agent (merge s (data_collector_node T s)) = Some "data_collector".
Proof.
  unfold data_collector_node.
  destruct (collect_data_directly T (company_name s)); reflexivity.
Qed.

Lemma analyst_marker (s : AgentState) :
  current_agent (merge s (analyst_node T s)) = Some "analyst".
Proof.
  unfold analyst_node.
  destruct (analyze_data_directly T (company_name s) (news_data s) (stock_data s));
    reflexivity.
Qed.

Lemma data_collector_node_raised (s : AgentState) (msg : string) :
  collect_data_directly T (company_name s) = Raised msg ->
  data_collector_node T s
  = mkUpdate None None None None None (Some "data_collector") (Some msg)
      (Some [AIMessage ("Error collecting data: " +:+ msg)]).
Proof. intros H. unfold data_collector_node. by rewrite H. Qed.

Lemma data_collector_node_returned (s : AgentState) (collected : CollectResult) :
  collect_data_directly T (company_name s) = Returned collected ->
  exists log,
    data_collector_node T s
    = mkUpdate (Some (cr_news_data collected)) (Some (cr_stock_data collected))
        None None None (Some "data_collector") None (Some log).
Proof. intros H. unfold data_collector_node. rewrite H. eauto. Qed.

Lemma analyst_node_returned (s : AgentState) (analysed : AnalysisResult) :
  analyze_data_directly T (company_name s) (news_data s) (stock_data s)
  = Returned analysed ->
  exists log,
    analyst_node T s
    = mkUpdate None None (Some (ar_analysis analysed))
        (Some (ar_risk_factors analysed)) None (Some "analyst") None (Some log).
Proof. intros H. unfold analyst_node. rewrite H. eauto. Qed.

Lemma run_from_step (g : StateGraph) (fuel : nat) (node : string)
    (state : AgentState) (action : AgentState -> outcome Update)
    (output : Update) (t : target) :
  assoc node (g_nodes g) = Some action ->
  action state = Returned output ->
  next_target g node (merge state output) = Returned t ->
  run_from g (S fuel) node state
  = match t with
    | END => Returned ([[(node, output)]], merge state output)
    | ToNode next =>
        rest ← run_from g fuel next (merge state output);
        Returned ([(node, output)] :: rest.1, rest.2)
    end.
Proof.
  intros Hnode Haction Hnext. cbn [run_from]. rewrite Hnode, Haction.
  cbn [mbind outcome_bind]. rewrite Hnext. reflexivity.
Qed.

Lemma run_from_raised (g : StateGraph) (fuel : nat) (node : string)
    (state : AgentState) (action : AgentState -> outcome Update) (msg : string) :
  assoc node (g_nodes g) = Some action ->
  action state = Raised msg ->
  run_from g (S fuel) node state = Raised msg.
Proof. intros Hnode Haction. cbn [run_from]. by rewrite Hnode, Haction. Qed.

Lemma next_after_data_collector (s : AgentState) :
  current_agent s = Some "data_collector" ->
  next_target (create_intelligence_workflow T) "data_collector" s
  = Returned (if truthy_str (error s) then END else ToNode "analyst").
Proof.
  intros H. unfold next_target.
  change (assoc "data_collector" (g_conditional_edges (create_intelligence_workflow T)))
    with (Some (should_continue, [("analyst", ToNode "analyst"); ("end", END)])).
  cbv beta iota. rewrite (should_continue_after s _ H).
  destruct (truthy_str (error s)); reflexivity.
Qed.

Lemma next_after_analyst (s : AgentState) :
  current_agent s = Some "analyst" ->
  next_target (create_intelligence_workflow T) "analyst" s
  = Returned (if truthy_str (error s) then END else ToNode "report_generator").
Proof.
  intros H. unfold next_target.
  change (assoc "analyst" (g_conditional_edges (create_intelligence_workflow T)))
    with (Some (should_continue,
                [("report_generator", ToNode "report_generator"); ("end", END)])).
  cbv beta iota. rewrite (should_continue_after s _ H).
  destruct (truthy_str (error s)); reflexivity.
Qed.

Lemma next_after_report_generator (s : AgentState) :
  next_target (create_intelligence_workflow T) "report_generator" s = Returned END.
Proof. reflexivity. Qed.

Lemma node_data_collector :
  assoc "data_collector" (g_nodes (create_intelligence_workflow T))
  = Some (fun state => Returned (data_collector_node T state)).
Proof. reflexivity. Qed.

Lemma node_analyst :
  assoc "analyst" (g_nodes (create_intelligence_workflow T))
  = Some (fun state => Returned (analyst_node T state)).
Proof. reflexivity. Qed.

Lemma node_report_generator :
  assoc "report_generator" (g_nodes (create_intelligence_workflow T))
  = Some (report_generator_node T).
Proof. reflexivity. Qed.

(** The three possible courses of a run. *)
Lemma execute_workflow (company thread_id : string) :
  execute (create_intelligence_workflow T) (create_initial_state company) thread_id
  = let s0 := create_initial_state company in
    let u1 := data_collector_node T s0 in
    let s1 := merge s0 u1 in
    if truthy_str (error s1)
    then Returned ([[("data_collector", u1)]], s1)
    else
      let u2 := analyst_node T s1 in
      let s2 := merge s1 u2 in
      if truthy_str (error s2)
      then Returned ([[("data_collector", u1)]; [("analyst", u2)]], s2)
      else
        u3 ← report_generator_node T s2;
        Returned ([[("data_collector", u1)]; [("analyst", u2)];
                   [("report_generator", u3)]], merge s2 u3).
Proof.
  unfold execute.
  change (g_entry_point (create_intelligence_workflow T)) with (Some "data_collector").
  cbv beta iota zeta. unfold recursion_limit.
  set (s0 := create_initial_state company).
  rewrite (run_from_step _ _ "data_collector" s0 _ (data_collector_node T s0) _
             node_data_collector eq_refl
             (next_after_data_collector _ (data_collector_marker s0))).
  set (s1 := merge s0 (data_collector_node T s0)).
  destruct (truthy_str (error s1)); [reflexivity|].
  rewrite (run_from_step _ _ "analyst" s1 _ (analyst_node T s1) _
             node_analyst eq_refl (next_after_analyst _ (analyst_marker s1))).
  set (s2 := merge s1 (analyst_node T s1)).
  destruct (truthy_str (error s2)); [reflexivity|].
  destruct (report_generator_node T s2) as [u3|msg] eqn:E3.
  - rewrite (run_from_step _ _ "report_generator" s2 _ u3 _
               node_report_generator E3 (next_after_report_generator _)).
    reflexivity.
  - rewrite (run_from_raised _ _ "report_generator" s2 _ msg
               node_report_generator E3).
    reflexivity.
Qed.

(** The run returns the output of the node that ran last. *)
Lemma run_workflow (company thread_id : string) :
  run_intelligence_workflow T company thread_id
  = let s0 := create_initial_state company in
    let u1 := data_collector_node T s0 in
    let s1 := merge s0 u1 in
    if truthy_str (error s1) then Returned u1
    else
      let u2 := analyst_node T s1 in
      let s2 := merge s1 u2 in
      if truthy_str (error s2) then Returned u2
      else report_generator_node T s2.
Proof.
  unfold run_intelligence_workflow, stream.
  rewrite execute_workflow. cbv zeta.
  destruct (truthy_str (error (merge _ (data_collector_node T _)))); [reflexivity|].
  destruct (truthy_str (error (merge _ (analyst_node T _)))); [reflexivity|].
  destruct (report_generator_node T _); reflexivity.
Qed.

(** The formatter's exceptions carry a text. *)
Lemma format_stock_raised_nonempty (stock_d : option stock) (msg : string) :
  format_stock_for_summary T stock_d = Raised msg -> Text.nonempty msg = true.
Proof.
  unfold format_stock_for_summary, is_positive, market_cap_comparable.
  destruct stock_d as [d|]; [|discriminate].
  destruct (negb _ || _); [discriminate|].
  destruct (d !! "daily_change_percent") as [[]|];
    destruct (d !! "monthly_change_percent") as [[]|];
    destruct (d !! "market_cap") as [[]|];
    cbn [mbind outcome_bind]; intros H; try discriminate;
    injection H as <-; reflexivity.
Qed.

(** The analysis formats the stock summary before it calls a tool. *)
Lemma analyze_raised_by_format (company : string) (news : option (list article))
    (stock_d : option stock) (msg : string) :
  format_stock_for_summary T stock_d = Raised msg ->
  analyze_data_directly T company news stock_d = Raised msg.
Proof. intros H. unfold analyze_data_directly. by rewrite H. Qed.

Lemma analyze_returned_formats (company : string) (news : option (list article))
    (stock_d : option stock) (analysed : AnalysisResult) :
  analyze_data_directly T company news stock_d = Returned analysed ->
  exists stock_summary, format_stock_for_summary T stock_d = Returned stock_summary.
Proof.
  unfold analyze_data_directly.
  destruct (format_stock_for_summary T stock_d); [eauto|discriminate].
Qed.

(** When the analyst leaves no error that stops the run, the stock summary
    could be formatted. *)
Lemma analyst_passes_formats (s : AgentState) :
  truthy_str (error (merge s (analyst_node T s))) = false ->
  exists stock_summary,
    format_stock_for_summary T (stock_data s) = Returned stock_summary.
Proof.
  destruct (format_stock_for_summary T (stock_data s)) as [text|msg] eqn:E;
    [eauto|].
  intros H. exfalso. unfold analyst_node in H.
  rewrite (analyze_raised_by_format (company_name s) (news_data s) _ _ E) in H.
  cbn [merge error upd_error replace_by truthy_str] in H.
  rewrite (format_stock_raised_nonempty _ _ E) in H. discriminate.
Qed.

Lemma stock_data_after_analyst (s : AgentState) :
  stock_data (merge s (analyst_node T s)) = stock_data s.
Proof.
  unfold analyst_node.
  destruct (analyze_data_directly T (company_name s) (news_data s) (stock_data s));
    reflexivity.
Qed.

(** The report generator returns when it runs after the analyst. *)
Lemma report_after_analyst (s : AgentState) :
  truthy_str (error (merge s (analyst_node T s))) = false ->
  exists sections,
    report_sections T (merge s (analyst_node T s)) = Returned sections.
Proof.
  intros H. destruct (analyst_passes_formats s H) as [text Htext].
  rewrite <- stock_data_after_analyst in Htext.
  rewrite (report_sections_returned T _ _ Htext). eauto.
Qed.

Lemma report_node_after_analyst (s : AgentState) :
  truthy_str (error (merge s (analyst_node T s))) = false ->
  exists report,
    report_generator_node T (merge s (analyst_node T s))
    = Returned (mkUpdate None None None None (Some report) (Some "report_generator")
                  None (Some [AIMessage "Final report generated"])).
Proof.
  intros H. destruct (report_after_analyst s H) as [sections Hsections].
  rewrite (report_generator_node_returned T _ _ Hsections). eauto.
Qed.

(** No exception of a tool or of the formatter leaves the run: the two
    stages catch what they raise, and the report generator runs only on stock
    data that the analyst could format.  (Exceptions of the graph library
    and of printing are outside the model.) *)
Lemma run_never_raises (company thread_id : string) :
  exists u, run_intelligence_workflow T company thread_id = Returned u.
Proof.
  rewrite run_workflow. cbv zeta.
  destruct (truthy_str _); [eauto|].
  destruct (truthy_str _) eqn:E2; [eauto|].
  destruct (report_after_analyst _ E2) as [sections Hsections].
  rewrite (report_generator_node_returned T _ _ Hsections). eauto.
Qed.

(** X22: a dictionary that the run returns holds a report or an error,
    whatever the collaborators do. *)
Theorem run_reports_or_fails (company thread_id : string) (u : Update) :
  run_intelligence_workflow T company thread_id = Returned u ->
  is_Some (upd_final_report u) \/ is_Some (upd_error u).
Proof.
  rewrite run_workflow. cbv zeta.
  set (s0 := create_initial_state company).
  set (u1 := data_collector_node T s0).
  set (s1 := merge s0 u1).
  set (u2 := analyst_node T s1).
  destruct (truthy_str (error s1)) eqn:E1.
  { intros [= <-]. right.
    apply truthy_str_is_Some.
    change (error s1) with (replace_by (upd_error u1) None) in E1.
    by rewrite replace_by_None in E1. }
  destruct (truthy_str (error (merge s1 u2))) eqn:E2.
  { intros [= <-]. right.
    change (error (merge s1 u2)) with (replace_by (upd_error u2) (error s1)) in E2.
    destruct (upd_error u2); [eauto|].
    cbn [replace_by] in E2. congruence. }
  unfold report_generator_node.
  destruct (report_sections T (merge s1 u2)); [|discriminate].
  cbn [mbind outcome_bind]. intros [= <-]. left. cbn. eauto.
Qed.

(** In the model [main] ends with status 0 whatever the tools do. *)
Lemma main_exit_code (args : Args) (openai_api_key : option string) :
  exit_code (main T args openai_api_key) = 0%Z.
Proof.
  unfold main.
  destruct (run_never_raises (arg_company args) (arg_thread_id args)) as [u ->].
  destruct (update_nonempty u && _); reflexivity.
Qed.

(** When both stages succeed the run returns the report generator's output
    for a state that holds what the stages produced. *)
Lemma run_success (company thread_id : string)
    (collected : CollectResult) (analysed : AnalysisResult) :
  collect_data_directly T company = Returned collected ->
  analyze_data_directly T company
    (Some (cr_news_data collected)) (Some (cr_stock_data collected))
  = Returned analysed ->
  exists log,
    run_intelligence_workflow T company thread_id
    = report_generator_node T
        (mkState company (Some (cr_news_data collected))
           (Some (cr_stock_data collected)) (Some (ar_analysis analysed))
           (Some (ar_risk_factors analysed)) None (Some "analyst") None log).
Proof.
  intros Hcollect Hanalyse.
  rewrite run_workflow. cbv zeta.
  destruct (data_collector_node_returned (create_initial_state company) _ Hcollect)
    as [log1 ->].
  cbn [create_initial_state merge replace_by error upd_error truthy_str
         upd_news_data upd_stock_data upd_analysis upd_risk_factors
         upd_final_report upd_current_agent upd_messages company_name
         news_data stock_data analysis risk_factors final_report current_agent
         messages].
  match goal with
  | |- context [analyst_node T ?s] =>
      destruct (analyst_node_returned s _ Hanalyse) as [log2 ->]
  end.
  cbn [merge replace_by error upd_error truthy_str
         upd_news_data upd_stock_data upd_analysis upd_risk_factors
         upd_final_report upd_current_agent upd_messages company_name
         news_data stock_data analysis risk_factors final_report current_agent
         messages].
  eauto.
Qed.

(** With both stages successful the run hands out a report. *)
Lemma run_success_report (company thread_id : string)
    (collected : CollectResult) (analysed : AnalysisResult) :
  collect_data_directly T company = Returned collected ->
  analyze_data_directly T company
    (Some (cr_news_data collected)) (Some (cr_stock_data collected))
  = Returned analysed ->
  exists log sections,
    let s2 :=
      mkState company (Some (cr_news_data collected))
        (Some (cr_stock_data collected)) (Some (ar_analysis analysed))
        (Some (ar_risk_factors analysed)) None (Some "analyst") None log in
    report_sections T s2 = Returned sections
    /\ run_intelligence_workflow T company thread_id
       = Returned (mkUpdate None None None None (Some (Text.join Text.nl sections))
                     (Some "report_generator") None
                     (Some [AIMessage "Final report generated"])).
Proof.
  intros Hcollect Hanalyse.
  destruct (run_success company thread_id _ _ Hcollect Hanalyse) as [log Hrun].
  destruct (analyze_returned_formats _ _ _ _ Hanalyse) as [text Htext].
  exists log. eexists. cbv zeta. split.
  - apply (report_sections_returned T _ text). exact Htext.
  - rewrite Hrun. apply report_generator_node_returned.
    apply (report_sections_returned T _ text). exact Htext.
Qed.

(** C7, amended: when the collection stage fails with a message that is not
    empty, the dictionary the run returns has [current_agent] equal to
    ["data_collector"], [error] equal to the message, and no analysis, risk
    or report key. *)
Theorem collection_failure_result (company thread_id msg : string) :
  collect_data_directly T company = Raised msg ->
  msg <> "" ->
  exists u,
    run_intelligence_workflow T company thread_id = Returned u
    /\ upd_current_agent u = Some "data_collector"
    /\ upd_error u = Some msg
    /\ upd_analysis u = None
    /\ upd_risk_factors u = None
    /\ upd_final_report u = None.
Proof.
  intros Hfail Hmsg.
  rewrite run_workflow. cbv zeta.
  rewrite (data_collector_node_raised (create_initial_state company) msg Hfail).
  cbn [merge upd_error error replace_by truthy_str].
  destruct msg as [|ch msg]; [done|].
  cbn [Text.nonempty]. eexists. split; [reflexivity|]. by repeat split.
Qed.


End RunProperties.

(** ** The claims on concrete runs *)

(** C1: the run for ["Acme Corp"] with collaborators that all succeed.  All
    three nodes run and the graph ends with a state that holds the news, the
    stock data, the analysis and the risk factors, but the dictionary handed
    to the caller is the report generator's output alone: it has none of
    these keys. *)
Theorem run_returns_last_node_output :
  exists u final,
    run_intelligence_workflow sample_tools "Acme Corp" "default" = Returned u
    /\ workflow_final_state sample_tools "Acme Corp" "default" = Returned final
    /\ executed_nodes sample_tools "Acme Corp" "default"
       = Returned ["data_collector"; "analyst"; "report_generator"]
    /\ (news_data final = Some sample_news /\ upd_news_data u = None)
    /\ (stock_data final = Some sample_stock /\ upd_stock_data u = None)
    /\ (analysis final = Some (ar_analysis sample_analysed) /\ upd_analysis u = None)
    /\ (risk_factors final = Some (ar_risk_factors sample_analysed)
        /\ upd_risk_factors u = None).
Proof.
  eexists _, _.
  split; [vm_compute; reflexivity|].
  split; [vm_compute; reflexivity|].
  split; [vm_compute; reflexivity|].
  repeat split; vm_compute; reflexivity.
Qed.

(** C2: a failure injected in the analysis stage.  The report generator does
    not run and no report is written, but the returned dictionary is the
    analyst's failure output: the news and the stock data that the collection
    stage produced, and that the graph's state still holds, are not in it. *)
Theorem analysis_failure_drops_collected_fields :
  exists u final,
    run_intelligence_workflow (inject_analysis_failure "boom" sample_tools)
      "Acme Corp" "default" = Returned u
    /\ workflow_final_state (inject_analysis_failure "boom" sample_tools)
         "Acme Corp" "default" = Returned final
    /\ executed_nodes (inject_analysis_failure "boom" sample_tools)
         "Acme Corp" "default" = Returned ["data_collector"; "analyst"]
    /\ upd_error u = Some "boom"
    /\ upd_final_report u = None
    /\ (news_data final = Some sample_news /\ upd_news_data u = None)
    /\ (stock_data final = Some sample_stock /\ upd_stock_data u = None).
Proof.
  eexists _, _.
  split; [vm_compute; reflexivity|].
  split; [vm_compute; reflexivity|].
  repeat split; vm_compute; reflexivity.
Qed.

(** C5: the command line run for ["Acme Corp"] with a failure injected in the
    analysis stage.  The run returns a dictionary without [final_report];
    [main] prints that no report could be generated and ends with status 0. *)
Theorem main_exit_code_without_report :
  exists u,
    run_intelligence_workflow (inject_analysis_failure "boom" sample_tools)
      "Acme Corp" "default" = Returned u
    /\ upd_final_report u = None
    /\ main (inject_analysis_failure "boom" sample_tools)
         (mkArgs "Acme Corp" "default" false) (Some "sk-test")
       = mkProcess [Line (Text.nl +:+ "❌ Error: Could not generate report")] 0.
Proof.
  eexists. split; [vm_compute; reflexivity|].
  split; vm_compute; reflexivity.
Qed.

(** C9: the collection stage fails with an exception that carries no text.
    The stored [error] is the empty string, the router does not stop, the
    analyst and the report generator run, and the caller gets a report
    although an upstream stage failed. *)
Theorem silent_failure_reaches_report :
  exists u final,
    collect_data_directly (inject_collection_failure silent_failure sample_tools)
      "Acme Corp" = Raised silent_failure
    /\ run_intelligence_workflow (inject_collection_failure silent_failure sample_tools)
         "Acme Corp" "default" = Returned u
    /\ workflow_final_state (inject_collection_failure silent_failure sample_tools)
         "Acme Corp" "default" = Returned final
    /\ executed_nodes (inject_collection_failure silent_failure sample_tools)
         "Acme Corp" "default"
       = Returned ["data_collector"; "analyst"; "report_generator"]
    /\ error final = Some silent_failure
    /\ is_Some (upd_final_report u)
    /\ upd_error u = None.
Proof.
  eexists _, _.
  split; [reflexivity|].
  split; [vm_compute; reflexivity|].
  split; [vm_compute; reflexivity|].
  split; [vm_compute; reflexivity|].
  split; [vm_compute; reflexivity|].
  split; [vm_compute; eauto|reflexivity].
Qed.

(** C7, as stated, fails on the marker: after a failure in the collection
    stage the marker is ["data_collector"], not ["collection"]. *)
Lemma collection_failure_marker_counterexample :
  exists u,
    run_intelligence_workflow (inject_collection_failure "boom" sample_tools)
      "Acme Corp" "default" = Returned u
    /\ upd_error u = Some "boom"
    /\ upd_current_agent u = Some "data_collector"
    /\ upd_current_agent u <> Some "collection".
Proof.
  eexists. split; [vm_compute; reflexivity|].
  split; [reflexivity|]. split; [reflexivity|]. vm_compute. discriminate.
Qed.

Lemma collection_failure_result_witness :
  collect_data_directly (inject_collection_failure "boom" sample_tools) "Acme Corp"
  = Raised "boom"
  /\ "boom" <> ""
  /\ exists u,
       run_intelligence_workflow (inject_collection_failure "boom" sample_tools)
         "Acme Corp" "default" = Returned u
       /\ upd_current_agent u = Some "data_collector"
       /\ upd_error u = Some "boom"
       /\ upd_analysis u = None
       /\ upd_risk_factors u = None
       /\ upd_final_report u = None.
Proof.
  split; [reflexivity|]. split; [discriminate|].
  apply (collection_failure_result (inject_collection_failure "boom" sample_tools)
           "Acme Corp" "default" "boom"); [reflexivity|discriminate].
Defined.

Lemma run_reports_or_fails_witness :
  let u := mkUpdate None None None None None (Some "analyst") (Some "boom")
             (Some [AIMessage "Error analyzing data: boom"]) in
  run_intelligence_workflow (inject_analysis_failure "boom" sample_tools)
    "Acme Corp" "default" = Returned u
  /\ (is_Some (upd_final_report u) \/ is_Some (upd_error u)).
Proof.
  intros u. split; [vm_compute; reflexivity|].
  apply (run_reports_or_fails (inject_analysis_failure "boom" sample_tools)
           "Acme Corp" "default" u).
  vm_compute. reflexivity.
Defined.





(** * Further properties of the code *)

(** ** Case conversion and stripping *)

Lemma char_upper_upper (c : ascii) : Text.char_upper (Text.char_upper c) = Text.char_upper c.
Proof. destruct c as [[] [] [] [] [] [] [] []]; reflexivity. Qed.

Lemma char_lower_lower (c : ascii) : Text.char_lower (Text.char_lower c) = Text.char_lower c.
Proof. destruct c as [[] [] [] [] [] [] [] []]; reflexivity. Qed.

Lemma char_lower_upper (c : ascii) : Text.char_lower (Text.char_upper c) = Text.char_lower c.
Proof. destruct c as [[] [] [] [] [] [] [] []]; reflexivity. Qed.

Lemma char_upper_lower (c : ascii) : Text.char_upper (Text.char_lower c) = Text.char_upper c.
Proof. destruct c as [[] [] [] [] [] [] [] []]; reflexivity. Qed.

Lemma upper_upper (s : string) :
  Text.ascii_upper (Text.ascii_upper s) = Text.ascii_upper s.
Proof.
  induction s as [|c s IH]; [reflexivity|].
  cbn [Text.ascii_upper]. by rewrite char_upper_upper, IH.
Qed.

Lemma lower_lower (s : string) :
  Text.ascii_lower (Text.ascii_lower s) = Text.ascii_lower s.
Proof.
  induction s as [|c s IH]; [reflexivity|].
  cbn [Text.ascii_lower]. by rewrite char_lower_lower, IH.
Qed.

Lemma lower_upper (s : string) :
  Text.ascii_lower (Text.ascii_upper s) = Text.ascii_lower s.
Proof.
  induction s as [|c s IH]; [reflexivity|].
  cbn [Text.ascii_lower Text.ascii_upper]. by rewrite char_lower_upper, IH.
Qed.

Lemma upper_lower (s : string) :
  Text.ascii_upper (Text.ascii_lower s) = Text.ascii_upper s.
Proof.
  induction s as [|c s IH]; [reflexivity|].
  cbn [Text.ascii_lower Text.ascii_upper]. by rewrite char_upper_lower, IH.
Qed.

(** Case conversion keeps ASCII text ASCII. *)
Lemma char_upper_ascii (c : ascii) :
  (nat_of_ascii (Text.char_upper c) <? 128)%nat = (nat_of_ascii c <? 128)%nat.
Proof. destruct c as [[] [] [] [] [] [] [] []]; reflexivity. Qed.

Lemma char_lower_ascii (c : ascii) :
  (nat_of_ascii (Text.char_lower c) <? 128)%nat = (nat_of_ascii c <? 128)%nat.
Proof. destruct c as [[] [] [] [] [] [] [] []]; reflexivity. Qed.

Lemma is_ascii_upper (s : string) :
  Text.is_ascii (Text.ascii_upper s) = Text.is_ascii s.
Proof.
  induction s as [|c s IH]; [reflexivity|].
  cbn [Text.ascii_upper Text.is_ascii]. by rewrite char_upper_ascii, IH.
Qed.

Lemma is_ascii_lower (s : string) :
  Text.is_ascii (Text.ascii_lower s) = Text.is_ascii s.
Proof.
  induction s as [|c s IH]; [reflexivity|].
  cbn [Text.ascii_lower Text.is_ascii]. by rewrite char_lower_ascii, IH.
Qed.

(** [str.upper] and [str.lower] on ASCII text. *)
Lemma upper_ascii (U : Text.Unicode) (s : string) :
  Text.is_ascii s = true -> Text.upper U s = Text.ascii_upper s.
Proof. intros H. unfold Text.upper. by rewrite H. Qed.

Lemma lower_ascii (U : Text.Unicode) (s : string) :
  Text.is_ascii s = true -> Text.lower U s = Text.ascii_lower s.
Proof. intros H. unfold Text.lower. by rewrite H. Qed.

Lemma append_cons (c : ascii) (a b : string) : String c a +:+ b = String c (a +:+ b).
Proof. reflexivity. Qed.

Lemma append_nonempty_r (a b : string) : b <> "" -> a +:+ b <> "".
Proof. destruct a; [done|]. intros _. rewrite append_cons. discriminate. Qed.

(** An asterisk is no byte of the encoding of a white-space character. *)
Lemma is_space2_star (c1 : ascii) : Text.is_space2 c1 "*" = false.
Proof.
  unfold Text.is_space2. generalize (nat_of_ascii c1). intros n1.
  change (nat_of_ascii "*") with 42%nat. cbn [Nat.eqb orb].
  apply andb_false_r.
Qed.

Lemma is_space3_star_2 (c1 c3 : ascii) : Text.is_space3 c1 "*" c3 = false.
Proof.
  unfold Text.is_space3.
  generalize (nat_of_ascii c1) (nat_of_ascii c3). intros n1 n3.
  change (nat_of_ascii "*") with 42%nat. cbn [Nat.eqb].
  by rewrite !andb_false_r.
Qed.

Lemma is_space3_star_3 (c1 c2 : ascii) : Text.is_space3 c1 c2 "*" = false.
Proof.
  unfold Text.is_space3.
  generalize (nat_of_ascii c1) (nat_of_ascii c2). intros n1 n2.
  change (nat_of_ascii "*") with 42%nat. cbn [Nat.eqb Nat.leb orb andb].
  by rewrite !andb_false_r.
Qed.

(** So stripping on the left stops at an asterisk at the latest. *)
Lemma lstrip_star_bounded (n : nat) (p r : string) :
  (String.length p <= n)%nat ->
  Text.nonempty (Text.lstrip (p +:+ String "*" r)) = true.
Proof.
  revert p. induction n as [|n IH]; intros p Hlen.
  { destruct p; [|cbn in Hlen; lia].
    destruct r as [|c2 [|c3 s3]]; reflexivity. }
  destruct p as [|c1 p1].
  { destruct r as [|c2 [|c3 s3]]; reflexivity. }
  cbn [String.length] in Hlen.
  rewrite append_cons. cbn [Text.lstrip].
  destruct (Text.is_space c1); [apply IH; lia|].
  destruct p1 as [|c2 p2].
  { change ("" +:+ String "*" r) with (String "*" r). cbv iota.
    rewrite is_space2_star.
    destruct r as [|c3 s3]; [reflexivity|].
    by rewrite is_space3_star_2. }
  cbn [String.length] in Hlen.
  rewrite append_cons. cbv iota.
  destruct (Text.is_space2 c1 c2); [apply IH; lia|].
  destruct p2 as [|c3 p3].
  { change ("" +:+ String "*" r) with (String "*" r). cbv iota.
    by rewrite is_space3_star_3. }
  cbn [String.length] in Hlen.
  rewrite append_cons. cbv iota.
  destruct (Text.is_space3 c1 c2 c3); [apply IH; lia|reflexivity].
Qed.

Lemma all_space_star (p r : string) : Text.all_space (p +:+ String "*" r) = false.
Proof.
  unfold Text.all_space.
  by rewrite (lstrip_star_bounded (String.length p) p r).
Qed.

Lemma contains_star (b : string) :
  Text.contains "*" b = true -> exists p r, b = p +:+ String "*" r.
Proof.
  induction b as [|c b IH]; [discriminate|].
  cbn [Text.contains Text.starts_with]. rewrite andb_true_r.
  destruct (Ascii.eqb "*" c) eqn:E.
  - apply Ascii.eqb_eq in E as <-. intros _. by exists "", b.
  - cbn [orb]. intros H. destruct (IH H) as (p & r & ->).
    by exists (String c p), r.
Qed.

(** No text that ends with a part holding an asterisk is all white space. *)
Lemma all_space_before_star (b : string) :
  Text.contains "*" b = true -> forall x, Text.all_space (x +:+ b) = false.
Proof.
  intros H x. destruct (contains_star b H) as (p & r & ->).
  rewrite <- append_assoc. apply all_space_star.
Qed.

(** Stripping on the right does not reach into what stands before such a
    part. *)
Lemma rstrip_append (a b : string) :
  (forall x, Text.all_space (x +:+ b) = false) ->
  Text.rstrip (a +:+ b) = a +:+ Text.rstrip b.
Proof.
  intros Hb. induction a as [|c a IH]; [reflexivity|].
  rewrite !append_cons. cbn [Text.rstrip].
  rewrite <- append_cons, Hb. by rewrite IH.
Qed.

(** One step along a chain of parts. *)
Lemma rstrip_step (a b r : string) :
  Text.rstrip b = r /\ (forall x, Text.all_space (x +:+ b) = false) ->
  Text.rstrip (a +:+ b) = a +:+ r
  /\ (forall x, Text.all_space (x +:+ (a +:+ b)) = false).
Proof.
  intros [<- Hb]. split; [by apply rstrip_append|].
  intros x. rewrite <- append_assoc. apply Hb.
Qed.

(** Strips a chain of parts that ends with a closed text, which holds an
    asterisk, and a line break. *)
Ltac rstrip_chain :=
  lazymatch goal with
  | |- Text.rstrip (_ +:+ Text.nl) = _ /\ _ =>
      split; [vm_compute; reflexivity
             |apply all_space_before_star; vm_compute; reflexivity]
  | |- Text.rstrip (_ +:+ _) = _ /\ _ => eapply rstrip_step; rstrip_chain
  end.

Lemma length_append (a b : string) :
  String.length (a +:+ b) = (String.length a + String.length b)%nat.
Proof.
  induction a as [|c a IH]; [reflexivity|].
  rewrite append_cons. cbn [String.length]. by rewrite IH.
Qed.

(** ** The ticker lookup *)

Lemma assoc_In {V} (key : string) (d : list (string * V)) (v : V) :
  assoc key d = Some v -> In v (map snd d).
Proof.
  induction d as [|[k w] d IH]; [discriminate|].
  cbn [assoc map snd]. destruct (String.eqb k key).
  - intros [= ->]. by left.
  - intros H. right. by apply IH.
Qed.

(** Every ticker of the table is looked up as itself and has no lower-case
    letter. *)
Lemma tickers_fixed (U : Text.Unicode) (t : string) :
  In t (map snd Repo.TICKER_MAPPING) ->
  Repo.get_ticker_symbol U t = t /\ Text.upper U t = t.
Proof.
  intros H. cbn [map snd Repo.TICKER_MAPPING] in H.
  repeat (destruct H as [<-|H]; [split; vm_compute; reflexivity|]).
  destruct H.
Qed.

(** X1: for a name written in ASCII, looking a result of the ticker lookup
    up again gives the same symbol: a ticker is taken for what it is. *)
Theorem get_ticker_symbol_idempotent (U : Text.Unicode) (company_name : string) :
  Text.is_ascii company_name = true ->
  Repo.get_ticker_symbol U (Repo.get_ticker_symbol U company_name)
  = Repo.get_ticker_symbol U company_name.
Proof.
  intros Hascii.
  unfold Repo.get_ticker_symbol at 2 3.
  rewrite (lower_ascii U _ Hascii), (upper_ascii U _ Hascii).
  destruct (assoc (Text.strip (Text.ascii_lower company_name)) Repo.TICKER_MAPPING)
    as [t|] eqn:E; cbn [default from_option id].
  - by apply tickers_fixed, (assoc_In _ _ _ E).
  - unfold Repo.get_ticker_symbol.
    rewrite (lower_ascii U (Text.ascii_upper company_name)),
      (upper_ascii U (Text.ascii_upper company_name))
      by (by rewrite is_ascii_upper).
    by rewrite lower_upper, E, upper_upper.
Qed.

(** X2: for a name written in ASCII the ticker lookup does not depend on the
    case of the name, and its result has no lower-case letter. *)
Theorem get_ticker_symbol_case_insensitive (U : Text.Unicode) (company_name : string) :
  Text.is_ascii company_name = true ->
  Repo.get_ticker_symbol U (Text.upper U company_name)
  = Repo.get_ticker_symbol U company_name
  /\ Repo.get_ticker_symbol U (Text.lower U company_name)
     = Repo.get_ticker_symbol U company_name
  /\ Text.upper U (Repo.get_ticker_symbol U company_name)
     = Repo.get_ticker_symbol U company_name.
Proof.
  intros Hascii.
  unfold Repo.get_ticker_symbol.
  rewrite (lower_ascii U _ Hascii), (upper_ascii U _ Hascii).
  rewrite (lower_ascii U (Text.ascii_upper company_name)),
    (upper_ascii U (Text.ascii_upper company_name))
    by (by rewrite is_ascii_upper).
  rewrite (lower_ascii U (Text.ascii_lower company_name)),
    (upper_ascii U (Text.ascii_lower company_name))
    by (by rewrite is_ascii_lower).
  rewrite lower_upper, lower_lower, upper_upper, upper_lower.
  split; [reflexivity|]. split; [reflexivity|].
  destruct (assoc (Text.strip (Text.ascii_lower company_name)) Repo.TICKER_MAPPING)
    as [t|] eqn:E; cbn [default from_option id].
  - by apply tickers_fixed, (assoc_In _ _ _ E).
  - rewrite upper_ascii by (by rewrite is_ascii_upper). apply upper_upper.
Qed.

Lemma get_ticker_symbol_idempotent_witness :
  Text.is_ascii "  Apple " = true
  /\ Repo.get_ticker_symbol sample_unicode "  Apple " = "AAPL"
  /\ Repo.get_ticker_symbol sample_unicode
       (Repo.get_ticker_symbol sample_unicode "  Apple ")
     = Repo.get_ticker_symbol sample_unicode "  Apple ".
Proof.
  split; [reflexivity|]. split; [reflexivity|].
  apply (get_ticker_symbol_idempotent sample_unicode "  Apple "). reflexivity.
Defined.

Lemma get_ticker_symbol_case_insensitive_witness :
  Text.is_ascii "Initech" = true
  /\ Repo.get_ticker_symbol sample_unicode "Initech" = "INITECH"
  /\ Repo.get_ticker_symbol sample_unicode (Text.upper sample_unicode "Initech")
     = Repo.get_ticker_symbol sample_unicode "Initech"
  /\ Repo.get_ticker_symbol sample_unicode (Text.lower sample_unicode "Initech")
     = Repo.get_ticker_symbol sample_unicode "Initech"
  /\ Text.upper sample_unicode (Repo.get_ticker_symbol sample_unicode "Initech")
     = Repo.get_ticker_symbol sample_unicode "Initech".
Proof.
  split; [reflexivity|]. split; [reflexivity|].
  apply (get_ticker_symbol_case_insensitive sample_unicode "Initech"). reflexivity.
Defined.

(** ** The summary generator *)

(** Rewrites [summary_generator_tool] to its text: the template without its
    first and its last line break. *)
Ltac strip_summary :=
  unfold Repo.summary_generator_tool, Repo.summary_template, Text.strip;
  change (Text.lstrip (Text.nl +:+ ?x)) with (Text.lstrip x);
  change (Text.lstrip ("## Market Summary for " +:+ ?x))
    with ("## Market Summary for " +:+ x);
  match goal with
  | |- context [Text.rstrip ?chain] =>
      let r := fresh "r" in
      evar (r : string);
      assert (Text.rstrip chain = r
              /\ (forall x, Text.all_space (x +:+ chain) = false)) as [-> _]
        by (subst r; rstrip_chain);
      subst r
  end.


(** X3: [strip()] takes exactly the first and the last line break off the
    summary template, whatever the company name and the two summaries are.
    So the summary opens with its title line, blanks at the ends of the
    inserted texts stay, and the summary is longer than 100 characters, the
    bound the test suite checks. *)
Theorem summary_generator_tool_text
    (company_name news_summary stock_summary : string) :
  Text.nl +:+ Repo.summary_generator_tool company_name news_summary stock_summary
  +:+ Text.nl
  = Repo.summary_template company_name news_summary stock_summary
  /\ Text.starts_with ("## Market Summary for " +:+ company_name)
       (Repo.summary_generator_tool company_name news_summary stock_summary) = true
  /\ (100 < String.length
              (Repo.summary_generator_tool company_name news_summary stock_summary))%nat.
Proof.
  split; [|split].
  - strip_summary. rewrite ?append_assoc. reflexivity.
  - strip_summary. rewrite <- append_assoc. apply starts_with_append.
  - strip_summary. rewrite !length_append.
    change (String.length Text.nl) with 1%nat. cbn [String.length]. lia.
Qed.

(** ** The risk analyser: news *)

Lemma Qgtb_half (count total : nat) :
  Qgtb (inject_Z (Z.of_nat count)) (inject_Z (Z.of_nat total) / 2)%Q = true
  <-> (total < 2 * count)%nat.
Proof.
  unfold Qgtb, Qle_bool, Qdiv, Qmult, Qinv, inject_Z. cbn [Qnum Qden].
  rewrite negb_true_iff, Z.leb_gt. lia.
Qed.

Lemma Qltb_lt (a b : Q) : Qltb a b = true <-> (a < b)%Q.
Proof.
  unfold Qltb. rewrite negb_true_iff, <- not_true_iff_false, Qle_bool_iff.
  split; [apply Qnot_le_lt|apply Qlt_not_le].
Qed.

Lemma existsb_category (name : string) (news : list article) :
  name <> "" ->
  existsb (String.eqb name) (map (fun n => default "" (category n)) news) = true
  <-> exists n, In n news /\ category n = Some name.
Proof.
  intros Hname. rewrite existsb_exists. split.
  - intros (c & Hc & Heq). apply String.eqb_eq in Heq as <-.
    apply in_map_iff in Hc as (n & Hn & Hin). exists n. split; [done|].
    destruct (category n); cbn in Hn; congruence.
  - intros (n & Hin & Hcat). exists name. split; [|apply String.eqb_refl].
    apply in_map_iff. exists n. by rewrite Hcat.
Qed.

(** The risks found in a list of articles that is not empty: up to three,
    in a fixed order. *)
Lemma analyze_news_risks_shape (first : article) (rest : list article) :
  let news := first :: rest in
  Repo.analyze_news_risks news
  = (if Qgtb (inject_Z (Z.of_nat (length (List.filter Repo.is_negative news))))
             (inject_Z (Z.of_nat (length news)) / 2)%Q
     then [Repo.negative_sentiment_risk] else [])
    ++ (if existsb (String.eqb "earnings")
                   (map (fun n => default "" (category n)) news)
           && existsb (fun article =>
                         bool_decide (category article = Some "earnings")
                         && Qltb (default 0%Q (sentiment_score article)) 0%Q)
                      news
        then [Repo.earnings_risk] else [])
    ++ (if existsb (String.eqb "leadership")
                   (map (fun n => default "" (category n)) news)
        then [Repo.leadership_risk] else []).
Proof.
  intros news. unfold Repo.analyze_news_risks. fold news.
  destruct (Qgtb _ _); destruct (existsb (String.eqb "earnings") _);
    destruct (existsb (fun article => _) news);
    destruct (existsb (String.eqb "leadership") _); reflexivity.
Qed.


(** Membership in a list that holds one fixed text or nothing. *)
Lemma In_optional (b : bool) (x y : string) :
  In x (if b then [y] else []) <-> b = true /\ x = y.
Proof. destruct b; cbn; intuition congruence. Qed.

(** X4: for a list of articles that is not empty, the negative-sentiment
    risk is reported exactly when more than half of the articles score
    below [-0.2]; for an empty list the only risk is the limited coverage. *)
Theorem analyze_news_risks_majority (news : list article) :
  (In Repo.negative_sentiment_risk (Repo.analyze_news_risks news)
   <-> news <> []
       /\ (length news < 2 * length (List.filter Repo.is_negative news))%nat)
  /\ Repo.analyze_news_risks [] = [Repo.limited_coverage_risk].
Proof.
  split; [|reflexivity].
  destruct news as [|first rest].
  { cbn. split; [intros [H|[]]; vm_compute in H; discriminate|intros [[] _]; done]. }
  rewrite analyze_news_risks_shape. cbv zeta.
  rewrite !in_app_iff, !In_optional, Qgtb_half.
  split.
  - intros [[H _]|[[_ H]|[_ H]]]; [done| |]; vm_compute in H; discriminate.
  - intros [_ H]. left. done.
Qed.

(** X5: for a list of articles that is not empty, the earnings risk is
    reported exactly when some article of category ["earnings"] has a score
    below zero, and the leadership risk exactly when some article has
    category ["leadership"]. *)
Theorem analyze_news_risks_categories (first : article) (rest : list article) :
  let news := first :: rest in
  (In Repo.earnings_risk (Repo.analyze_news_risks news)
   <-> exists n, In n news /\ category n = Some "earnings"
                 /\ (default 0 (sentiment_score n) < 0)%Q)
  /\ (In Repo.leadership_risk (Repo.analyze_news_risks news)
      <-> exists n, In n news /\ category n = Some "leadership").
Proof.
  intros news. unfold news at 1 3. rewrite analyze_news_risks_shape. fold news.
  rewrite !in_app_iff, !In_optional, andb_true_iff.
  rewrite !existsb_category by discriminate. rewrite existsb_exists.
  split; split.
  - intros [[_ H]|[[[_ (n & Hin & Hn)] _]|[_ H]]];
      [vm_compute in H; discriminate| |vm_compute in H; discriminate].
    apply andb_true_iff in Hn as [Hcat Hneg].
    apply bool_decide_eq_true in Hcat. apply Qltb_lt in Hneg. eauto.
  - intros (n & Hin & Hcat & Hneg). right; left. split; [|done]. split; [eauto|].
    exists n. split; [done|]. apply andb_true_iff. split.
    + by apply bool_decide_eq_true.
    + by apply Qltb_lt.
  - intros [[_ H]|[[_ H]|[H _]]]; [vm_compute in H; discriminate| |done].
    vm_compute in H; discriminate.
  - intros H. right; right. done.
Qed.

(** ** The risk analyser: the tool *)

Section RiskTool.

Context (S : Sources).

(** The stock risks the tool collects: none without stock data. *)
Lemma risk_analysis_raised (company_name e : string)
    (news_data : option (list article)) (stock_data : option stock) :
  (if truthy_dict stock_data
   then Repo.analyze_stock_risks S (default ∅ stock_data) else Returned [])
  = Raised e ->
  Repo.risk_analysis S company_name news_data stock_data = Raised e.
Proof.
  intros H. unfold Repo.risk_analysis. rewrite H.
  destruct (truthy_list news_data); [|reflexivity].
  destruct (truthy_list (Some _)); reflexivity.
Qed.

Lemma risk_analysis_returned (company_name : string)
    (news_data : option (list article)) (stock_data : option stock)
    (stock_risks : list string) :
  (if truthy_dict stock_data
   then Repo.analyze_stock_risks S (default ∅ stock_data) else Returned [])
  = Returned stock_risks ->
  exists report,
    Repo.risk_analysis S company_name news_data stock_data = Returned report
    /\ rr_error report = None
    /\ rr_company_name report = company_name
    /\ let news_risks :=
         if truthy_list news_data
         then Repo.analyze_news_risks (default [] news_data) else [] in
       let all_risks := news_risks ++ stock_risks ++ Repo.get_market_risks in
       rr_all_risks report = Some all_risks
       /\ rr_risk_count report = Some (Z.of_nat (length all_risks))
       /\ rr_risk_categories report
          = Some ((if truthy_list (Some news_risks)
                   then [("News & Sentiment Risks", news_risks)] else [])
                  ++ (if truthy_list (Some stock_risks)
                      then [("Stock Performance Risks", stock_risks)] else [])
                  ++ [("General Market Risks", Repo.get_market_risks)])
       /\ rr_risk_level report
          = if (8 <=? Z.of_nat (length all_risks))%Z then "HIGH"
            else if (6 <=? Z.of_nat (length all_risks))%Z then "MODERATE"
            else "LOW".
Proof.
  intros H. unfold Repo.risk_analysis. rewrite H. cbv zeta.
  set (news_risks := if truthy_list news_data
                     then Repo.analyze_news_risks (default [] news_data) else []).
  assert (Hnews :
    (if truthy_list news_data
     then
       if truthy_list (Some (Repo.analyze_news_risks (default [] news_data)))
       then ([] ++ [("News & Sentiment Risks",
                     Repo.analyze_news_risks (default [] news_data))],
             [] ++ Repo.analyze_news_risks (default [] news_data))
       else ([], [])
     else ([], []))
    = ((if truthy_list (Some news_risks)
        then [("News & Sentiment Risks", news_risks)] else []), news_risks)).
  { subst news_risks. destruct (truthy_list news_data); [|reflexivity].
    destruct (Repo.analyze_news_risks _); reflexivity. }
  rewrite Hnews. clear Hnews. cbn [mbind outcome_bind].
  assert (Hstock :
    (if truthy_list (Some stock_risks)
     then ((if truthy_list (Some news_risks)
            then [("News & Sentiment Risks", news_risks)] else [])
           ++ [("Stock Performance Risks", stock_risks)],
           news_risks ++ stock_risks)
     else ((if truthy_list (Some news_risks)
            then [("News & Sentiment Risks", news_risks)] else []), news_risks))
    = ((if truthy_list (Some news_risks)
        then [("News & Sentiment Risks", news_risks)] else [])
       ++ (if truthy_list (Some stock_risks)
           then [("Stock Performance Risks", stock_risks)] else []),
       news_risks ++ stock_risks)).
  { destruct stock_risks; cbn [truthy_list]; by rewrite ?app_nil_r. }
  rewrite Hstock. clear Hstock.
  rewrite <- !app_assoc.
  set (all_risks := news_risks ++ stock_risks ++ Repo.get_market_risks).
  change (length Repo.get_market_risks) with 3%nat.
  assert (Hlevel : forall (A : Type) (high moderate low : A),
    (if (5 <=? Z.of_nat (length all_risks) - Z.of_nat 3)%Z then high
     else if (3 <=? Z.of_nat (length all_risks) - Z.of_nat 3)%Z then moderate else low)
    = if (8 <=? Z.of_nat (length all_risks))%Z then high
      else if (6 <=? Z.of_nat (length all_risks))%Z then moderate else low).
  { intros A high moderate low.
    repeat match goal with |- context [(?a <=? ?b)%Z] =>
      destruct (Z.leb_spec a b) end; try reflexivity; lia. }
  rewrite (Hlevel (string * string)%type).
  destruct (8 <=? _)%Z; [|destruct (6 <=? _)%Z];
    (eexists; split; [reflexivity|]; repeat split).
Qed.

End RiskTool.

Section RiskToolProperties.

Context (S : Sources).

(** X6: the risk analyser never raises.  It returns either the error
    dictionary, with level ["UNKNOWN"] and no risk list, count or
    categories, when the body of its [try] raised; or a
    dictionary without error in which the categories are not empty, their
    risks read in order are the list of all risks, this list ends with the
    three general market risks, and [risk_count] is its length. *)
Theorem risk_analyzer_tool_result (company_name : string)
    (news_data : option (list article)) (stock_data : option stock) :
  let r := Repo.risk_analyzer_tool S company_name news_data stock_data in
  (exists e,
     Repo.risk_analysis S company_name news_data stock_data = Raised e
     /\ rr_error r = Some ("Error analyzing risks: " +:+ e)
     /\ rr_risk_level r = "UNKNOWN"
     /\ rr_all_risks r = None
     /\ rr_risk_count r = None
     /\ rr_risk_categories r = None)
  \/ (exists categories risks specific,
        rr_error r = None
        /\ rr_risk_categories r = Some categories
        /\ rr_all_risks r = Some risks
        /\ concat (map snd categories) = risks
        /\ Forall (fun c => snd c <> []) categories
        /\ risks = specific ++ Repo.get_market_risks
        /\ rr_risk_count r = Some (Z.of_nat (length risks))).
Proof.
  intros r. subst r. unfold Repo.risk_analyzer_tool.
  destruct (if truthy_dict stock_data
            then Repo.analyze_stock_risks S (default ∅ stock_data) else Returned [])
    as [stock_risks|e] eqn:E.
  - right.
    destruct (risk_analysis_returned S company_name news_data stock_data _ E)
      as (report & -> & Herr & _ & Hall & Hcount & Hcats & _).
    cbv zeta in Hall, Hcount, Hcats.
    set (news_risks := if truthy_list news_data
                       then Repo.analyze_news_risks (default [] news_data) else [])
      in *.
    eexists _, _, (news_risks ++ stock_risks).
    split; [exact Herr|]. split; [exact Hcats|]. split; [exact Hall|].
    split; [|split; [|split; [by rewrite <- app_assoc|exact Hcount]]].
    + destruct news_risks, stock_risks; cbn; by rewrite ?app_nil_r.
    + destruct news_risks, stock_risks; cbn [truthy_list app];
        repeat (constructor; [cbn; discriminate|]); constructor.
  - left. rewrite (risk_analysis_raised S _ _ _ _ E). eauto 10.
Qed.

(** X7: the level is drawn from the number of risks besides the three
    general ones, while [risk_count] counts all of them: the level is
    ["HIGH"] from a count of 8, ["MODERATE"] for 6 and 7, ["LOW"] below, and
    ["UNKNOWN"] exactly when there is no count. *)
Theorem risk_analyzer_tool_level (company_name : string)
    (news_data : option (list article)) (stock_data : option stock) :
  let r := Repo.risk_analyzer_tool S company_name news_data stock_data in
  match rr_risk_count r with
  | Some n =>
      (3 <= n)%Z
      /\ rr_risk_level r
         = if (8 <=? n)%Z then "HIGH" else if (6 <=? n)%Z then "MODERATE" else "LOW"
  | None => rr_risk_level r = "UNKNOWN"
  end.
Proof.
  intros r. subst r. unfold Repo.risk_analyzer_tool.
  destruct (if truthy_dict stock_data
            then Repo.analyze_stock_risks S (default ∅ stock_data) else Returned [])
    as [stock_risks|e] eqn:E.
  - destruct (risk_analysis_returned S company_name news_data stock_data _ E)
      as (report & -> & _ & _ & _ & Hcount & _ & Hlevel).
    cbv zeta in Hcount, Hlevel. rewrite Hcount. split; [|exact Hlevel].
    rewrite !length_app. change (length Repo.get_market_risks) with 3%nat. lia.
  - rewrite (risk_analysis_raised S _ _ _ _ E). reflexivity.
Qed.


End RiskToolProperties.


(** ** The workflow, for any collaborators *)

Section WorkflowProperties.

Context (T : Tools).

Lemma executed_nodes_workflow (company thread_id : string) :
  executed_nodes T company thread_id
  = let s0 := create_initial_state company in
    let s1 := merge s0 (data_collector_node T s0) in
    let s2 := merge s1 (analyst_node T s1) in
    Returned
      (if truthy_str (error s1) then ["data_collector"]
       else if truthy_str (error s2) then ["data_collector"; "analyst"]
       else ["data_collector"; "analyst"; "report_generator"]).
Proof.
  unfold executed_nodes, stream. rewrite execute_workflow. cbv zeta.
  destruct (truthy_str (error (merge _ (data_collector_node T _)))); [reflexivity|].
  destruct (truthy_str (error (merge _ (analyst_node T _)))) eqn:E2; [reflexivity|].
  destruct (report_node_after_analyst T _ E2) as [report ->]. reflexivity.
Qed.

Lemma workflow_final_state_workflow (company thread_id : string) :
  workflow_final_state T company thread_id
  = let s0 := create_initial_state company in
    let s1 := merge s0 (data_collector_node T s0) in
    let s2 := merge s1 (analyst_node T s1) in
    if truthy_str (error s1) then Returned s1
    else if truthy_str (error s2) then Returned s2
    else u3 ← report_generator_node T s2; Returned (merge s2 u3).
Proof.
  unfold workflow_final_state. rewrite execute_workflow. cbv zeta.
  destruct (truthy_str (error (merge _ (data_collector_node T _)))); [reflexivity|].
  destruct (truthy_str (error (merge _ (analyst_node T _)))); [reflexivity|].
  destruct (report_generator_node T _); reflexivity.
Qed.

Lemma data_collector_logs_one (s : AgentState) :
  exists m, upd_messages (data_collector_node T s) = Some [m].
Proof.
  unfold data_collector_node.
  destruct (collect_data_directly T (company_name s)); cbn; eauto.
Qed.

Lemma analyst_logs_one (s : AgentState) :
  exists m, upd_messages (analyst_node T s) = Some [m].
Proof.
  unfold analyst_node.
  destruct (analyze_data_directly T _ _ _); cbn; eauto.
Qed.

(** X9: every run executes the data collector first and then, at most once
    each and in this order, the analyst and the report generator: the nodes
    run are a non-empty prefix of the pipeline, and the run stays within the
    step limit of the graph. *)
Theorem executed_nodes_in_order (company thread_id : string) :
  exists nodes,
    executed_nodes T company thread_id = Returned nodes
    /\ (nodes = ["data_collector"]
        \/ nodes = ["data_collector"; "analyst"]
        \/ nodes = ["data_collector"; "analyst"; "report_generator"]).
Proof.
  rewrite executed_nodes_workflow. cbv zeta.
  eexists. split; [reflexivity|].
  destruct (truthy_str _); [by left|]. destruct (truthy_str _); auto.
Qed.

(** X10: when a run is over, the state in the graph still names the run's
    company, its event log holds exactly one entry per executed node, and
    its stage marker is the name of the node that ran last. *)
Theorem final_state_log_and_marker (company thread_id : string) :
  exists nodes final,
    executed_nodes T company thread_id = Returned nodes
    /\ workflow_final_state T company thread_id = Returned final
    /\ company_name final = company
    /\ length (messages final) = length nodes
    /\ current_agent final = last nodes.
Proof.
  rewrite executed_nodes_workflow, workflow_final_state_workflow. cbv zeta.
  set (s0 := create_initial_state company).
  set (s1 := merge s0 (data_collector_node T s0)).
  set (s2 := merge s1 (analyst_node T s1)).
  destruct (data_collector_logs_one s0) as [m1 H1].
  destruct (analyst_logs_one s1) as [m2 H2].
  assert (Hlog1 : messages s1 = [m1]) by (subst s1; cbn [merge messages]; by rewrite H1).
  assert (Hlog2 : messages s2 = [m1; m2]).
  { subst s2. cbn [merge messages]. by rewrite Hlog1, H2. }
  destruct (truthy_str (error s1)).
  { eexists _, _. split; [reflexivity|]. split; [reflexivity|].
    split; [reflexivity|]. split; [by rewrite Hlog1|]. apply data_collector_marker. }
  destruct (truthy_str (error s2)) eqn:E2.
  { eexists _, _. split; [reflexivity|]. split; [reflexivity|].
    split; [reflexivity|]. split; [by rewrite Hlog2|]. apply analyst_marker. }
  destruct (report_node_after_analyst T s1 E2) as [report Hreport].
  fold s2 in Hreport. rewrite Hreport.
  eexists _, _. split; [reflexivity|]. split; [reflexivity|].
  split; [reflexivity|]. split; [|reflexivity].
  cbn [merge messages upd_messages default from_option id]. by rewrite Hlog2.
Qed.

(** X11: when the collection succeeds and the analysis fails with a message
    that is not empty, the report generator does not run, the caller gets
    the analyst's failure with the message, and the state in the graph keeps
    the collected news and stock data beside the error. *)
Theorem analysis_failure_short_circuits (company thread_id msg : string)
    (collected : CollectResult) :
  collect_data_directly T company = Returned collected ->
  analyze_data_directly T company
    (Some (cr_news_data collected)) (Some (cr_stock_data collected)) = Raised msg ->
  msg <> "" ->
  exists u final,
    executed_nodes T company thread_id = Returned ["data_collector"; "analyst"]
    /\ run_intelligence_workflow T company thread_id = Returned u
    /\ upd_error u = Some msg
    /\ upd_current_agent u = Some "analyst"
    /\ upd_final_report u = None
    /\ workflow_final_state T company thread_id = Returned final
    /\ news_data final = Some (cr_news_data collected)
    /\ stock_data final = Some (cr_stock_data collected)
    /\ error final = Some msg
    /\ analysis final = None
    /\ final_report final = None.
Proof.
  intros Hcollect Hanalyse Hmsg.
  rewrite executed_nodes_workflow, run_workflow, workflow_final_state_workflow.
  cbv zeta.
  destruct (data_collector_node_returned T (create_initial_state company) _ Hcollect)
    as [log1 ->].
  cbn [create_initial_state merge replace_by error upd_error truthy_str
         upd_news_data upd_stock_data upd_analysis upd_risk_factors
         upd_final_report upd_current_agent upd_messages company_name
         news_data stock_data analysis risk_factors final_report current_agent
         messages].
  unfold analyst_node.
  cbn [company_name news_data stock_data replace_by upd_news_data upd_stock_data
         merge create_initial_state].
  rewrite Hanalyse.
  cbn [merge replace_by error upd_error truthy_str
         upd_news_data upd_stock_data upd_analysis upd_risk_factors
         upd_final_report upd_current_agent upd_messages company_name
         news_data stock_data analysis risk_factors final_report current_agent
         messages].
  destruct msg as [|ch msg]; [done|]. cbn [Text.nonempty].
  eexists _, _. repeat split.
Qed.

(** X12: when both stages succeed, all three nodes run, the caller gets the
    report without error, and the state in the graph holds what every stage
    produced, the report included, with the marker at the report
    generator. *)
Theorem successful_run_state (company thread_id : string)
    (collected : CollectResult) (analysed : AnalysisResult) :
  collect_data_directly T company = Returned collected ->
  analyze_data_directly T company
    (Some (cr_news_data collected)) (Some (cr_stock_data collected))
  = Returned analysed ->
  exists u final report,
    executed_nodes T company thread_id
    = Returned ["data_collector"; "analyst"; "report_generator"]
    /\ run_intelligence_workflow T company thread_id = Returned u
    /\ upd_final_report u = Some report
    /\ upd_error u = None
    /\ workflow_final_state T company thread_id = Returned final
    /\ final_report final = Some report
    /\ news_data final = Some (cr_news_data collected)
    /\ stock_data final = Some (cr_stock_data collected)
    /\ analysis final = Some (ar_analysis analysed)
    /\ risk_factors final = Some (ar_risk_factors analysed)
    /\ error final = None
    /\ current_agent final = Some "report_generator".
Proof.
  intros Hcollect Hanalyse.
  rewrite executed_nodes_workflow, run_workflow, workflow_final_state_workflow.
  cbv zeta.
  destruct (data_collector_node_returned T (create_initial_state company) _ Hcollect)
    as [log1 ->].
  cbn [create_initial_state merge replace_by error upd_error truthy_str
         upd_news_data upd_stock_data upd_analysis upd_risk_factors
         upd_final_report upd_current_agent upd_messages company_name
         news_data stock_data analysis risk_factors final_report current_agent
         messages].
  match goal with
  | |- context [analyst_node T ?s] =>
      destruct (analyst_node_returned T s _ Hanalyse) as [log2 ->]
  end.
  cbn [merge replace_by error upd_error truthy_str
         upd_news_data upd_stock_data upd_analysis upd_risk_factors
         upd_final_report upd_current_agent upd_messages company_name
         news_data stock_data analysis risk_factors final_report current_agent
         messages].
  destruct (analyze_returned_formats T _ _ _ _ Hanalyse) as [text Htext].
  match goal with
  | |- context [report_generator_node T ?s] =>
      rewrite (report_generator_node_returned T s _
                 (report_sections_returned T s text Htext))
  end.
  cbn [mbind outcome_bind merge replace_by error upd_error
         upd_news_data upd_stock_data upd_analysis upd_risk_factors
         upd_final_report upd_current_agent upd_messages company_name
         news_data stock_data analysis risk_factors final_report current_agent
         messages].
  eexists _, _, _. repeat split.
Qed.

End WorkflowProperties.

Lemma analysis_failure_short_circuits_witness :
  collect_data_directly (inject_analysis_failure "boom" sample_tools) "Acme Corp"
  = Returned sample_collected
  /\ analyze_data_directly (inject_analysis_failure "boom" sample_tools) "Acme Corp"
       (Some (cr_news_data sample_collected)) (Some (cr_stock_data sample_collected))
     = Raised "boom"
  /\ "boom" <> ""
  /\ exists u final,
       executed_nodes (inject_analysis_failure "boom" sample_tools) "Acme Corp" "default"
       = Returned ["data_collector"; "analyst"]
       /\ run_intelligence_workflow (inject_analysis_failure "boom" sample_tools)
            "Acme Corp" "default" = Returned u
       /\ upd_error u = Some "boom"
       /\ upd_current_agent u = Some "analyst"
       /\ upd_final_report u = None
       /\ workflow_final_state (inject_analysis_failure "boom" sample_tools)
            "Acme Corp" "default" = Returned final
       /\ news_data final = Some (cr_news_data sample_collected)
       /\ stock_data final = Some (cr_stock_data sample_collected)
       /\ error final = Some "boom"
       /\ analysis final = None
       /\ final_report final = None.
Proof.
  split; [reflexivity|]. split; [reflexivity|]. split; [discriminate|].
  apply (analysis_failure_short_circuits (inject_analysis_failure "boom" sample_tools)
           "Acme Corp" "default" "boom" sample_collected);
    [reflexivity|reflexivity|discriminate].
Defined.

Lemma successful_run_state_witness :
  collect_data_directly sample_tools "Acme Corp" = Returned sample_collected
  /\ analyze_data_directly sample_tools "Acme Corp"
       (Some (cr_news_data sample_collected)) (Some (cr_stock_data sample_collected))
     = Returned sample_analysed
  /\ exists u final report,
       executed_nodes sample_tools "Acme Corp" "default"
       = Returned ["data_collector"; "analyst"; "report_generator"]
       /\ run_intelligence_workflow sample_tools "Acme Corp" "default" = Returned u
       /\ upd_final_report u = Some report
       /\ upd_error u = None
       /\ workflow_final_state sample_tools "Acme Corp" "default" = Returned final
       /\ final_report final = Some report
       /\ news_data final = Some (cr_news_data sample_collected)
       /\ stock_data final = Some (cr_stock_data sample_collected)
       /\ analysis final = Some (ar_analysis sample_analysed)
       /\ risk_factors final = Some (ar_risk_factors sample_analysed)
       /\ error final = None
       /\ current_agent final = Some "report_generator".
Proof.
  split; [reflexivity|]. split; [reflexivity|].
  apply (successful_run_state sample_tools "Acme Corp" "default"
           sample_collected sample_analysed); reflexivity.
Defined.

(** ** The report, for any collaborators *)

Lemma sentiment_cases (a : article) :
  (Qgtb (default 0%Q (sentiment_score a)) float_0_2 = true
   /\ Repo.is_negative a = false)
  \/ (Qgtb (default 0%Q (sentiment_score a)) float_0_2 = false
      /\ Repo.is_negative a = true)
  \/ (Qgtb (default 0%Q (sentiment_score a)) float_0_2 = false
      /\ Repo.is_negative a = false).
Proof.
  unfold Repo.is_negative.
  destruct (Qgtb _ float_0_2) eqn:Hpos; [|destruct (Qltb _ _); auto].
  left. split; [reflexivity|].
  apply not_true_iff_false. intros Hneg%Qltb_lt.
  unfold Qgtb in Hpos. apply negb_true_iff, not_true_iff_false in Hpos.
  apply Hpos, Qle_bool_iff. apply Qlt_le_weak.
  eapply Qlt_trans; [exact Hneg|]. reflexivity.
Qed.

(** X13: the summary, the report and the risk analyser grade an article
    alike: it is ["positive"] in the summary exactly when the report marks it
    green, ["negative"] exactly when the report marks it red, which is
    exactly when the risk analyser counts it as negative, and no article is
    both. *)
Theorem sentiment_renderings_agree (a : article) :
  (sentiment_word a = "positive" <-> sentiment_icon a = "🟢")
  /\ (sentiment_word a = "negative" <-> sentiment_icon a = "🔴")
  /\ (sentiment_icon a = "🔴" <-> Repo.is_negative a = true)
  /\ (sentiment_word a = "neutral" <-> sentiment_icon a = "🟡").
Proof.
  unfold sentiment_word, sentiment_icon.
  change (Qltb (default 0%Q (sentiment_score a)) (- float_0_2)%Q)
    with (Repo.is_negative a).
  destruct (sentiment_cases a) as [[-> ->]|[[-> ->]|[-> ->]]];
    repeat split; intros H; try reflexivity; vm_compute in H; discriminate.
Qed.

Section ReportMore.

Context (T : Tools).

(** When the stock block is due, the formatter's text is its title line and
    the field lines. *)
Lemma format_stock_written (s : AgentState) (stock_summary : string) :
  block_written s StockBlock = true ->
  format_stock_for_summary T (stock_data s) = Returned stock_summary ->
  stock_summary
  = "Stock Performance Summary:" +:+ Text.nl
    +:+ render_stock_fields T (default ∅ (stock_data s)).
Proof.
  unfold block_written, has_source_data, stock_is_error, format_stock_for_summary.
  destruct (stock_data s) as [d|]; [|discriminate].
  cbn [default from_option id].
  destruct (truthy_dict (Some d)), (has_key "error" d); try discriminate.
  intros _. cbn [negb orb].
  destruct (is_positive "daily_change_percent" d); [|discriminate].
  destruct (is_positive "monthly_change_percent" d); [|discriminate].
  destruct (market_cap_comparable d); [|discriminate].
  cbn [mbind outcome_bind]. congruence.
Qed.

(** X14: the report generator and [format_stock_for_summary] guard the stock
    data alike.  The formatter answers ["Stock data unavailable."] exactly
    for the states whose report has no stock block, so this sentence is never
    shown in a report; a report with a stock block shows, as its second
    section, the title ["Stock Performance Summary:"] and the field lines,
    and a report without one has no section that reads as a stock block. *)
Theorem stock_summary_guard_agrees (s : AgentState) (sections : list string) :
  report_sections T s = Returned sections ->
  (format_stock_for_summary T (stock_data s) = Returned "Stock data unavailable."
   <-> block_written s StockBlock = false)
  /\ if block_written s StockBlock
     then sections !! 1%nat
          = Some (Text.nl +:+ "## 📈 Stock Performance" +:+ Text.nl
                  +:+ ("Stock Performance Summary:" +:+ Text.nl
                       +:+ render_stock_fields T (default ∅ (stock_data s)))
                  +:+ Text.nl)
     else Forall (fun section => block_kind_of section <> Some StockBlock) sections.
Proof.
  intros Hsections. split.
  - split; [|apply format_stock_unavailable].
    intros H. destruct (block_written s StockBlock) eqn:Hw; [|reflexivity].
    apply (format_stock_written s _ Hw) in H. vm_compute in H. discriminate.
  - destruct (block_written s StockBlock) eqn:Hw.
    + rewrite report_sections_shape, Hw in Hsections.
      destruct (format_stock_for_summary T (stock_data s)) as [text|] eqn:E;
        [|discriminate].
      rewrite (format_stock_written s text Hw E) in Hsections.
      injection Hsections as <-. reflexivity.
    + apply List.Forall_forall. intros section Hin Hkind.
      assert (In (Some StockBlock) (map block_kind_of sections)) as Hmem
        by (rewrite <- Hkind; by apply in_map).
      rewrite (report_sections_kinds T s sections Hsections) in Hmem.
      apply in_map_iff in Hmem as (k & [= ->] & Hk).
      apply filter_In in Hk as [_ Hk]. congruence.
Qed.

(** X15: only the first five articles reach the report: a list of articles
    and its first five give the same sections, and the news block has two
    lines for each of at most five articles. *)
Theorem report_shows_five_articles (company : string) (news : list article)
    (stock_d : option stock) (analysis_text : option string)
    (risks : option (list string)) (report marker err : option string)
    (log : list message) :
  report_sections T
    (mkState company (Some news) stock_d analysis_text risks report marker err log)
  = report_sections T
      (mkState company (Some (take 5 news)) stock_d analysis_text
               risks report marker err log)
  /\ length (flat_map (article_lines T) (take 5 news)) = (2 * min 5 (length news))%nat.
Proof.
  split.
  - unfold report_sections.
    cbn [company_name news_data stock_data analysis risk_factors default from_option id].
    rewrite take_take. change (5 `min` 5)%nat with 5%nat.
    assert (truthy_list (Some (take 5 news)) = truthy_list (Some news)) as ->
      by (by destruct news).
    reflexivity.
  - rewrite <- length_take.
    induction (take 5 news) as [|a l IH]; [reflexivity|].
    cbn [flat_map article_lines app length]. rewrite IH. lia.
Qed.



End ReportMore.

Lemma stock_summary_guard_agrees_witness :
  let s := mkState "Acme Corp" None (Some sample_stock) None None None
                   (Some "analyst") None [] in
  let sections :=
    [header_block sample_tools "Acme Corp";
     stock_block ("Stock Performance Summary:" +:+ Text.nl
                  +:+ "- Current Price: $123.45 USD");
     footer_block] in
  report_sections sample_tools s = Returned sections
  /\ (format_stock_for_summary sample_tools (stock_data s)
      = Returned "Stock data unavailable."
      <-> block_written s StockBlock = false)
  /\ if block_written s StockBlock
     then sections !! 1%nat
          = Some (Text.nl +:+ "## 📈 Stock Performance" +:+ Text.nl
                  +:+ ("Stock Performance Summary:" +:+ Text.nl
                       +:+ render_stock_fields sample_tools
                             (default ∅ (stock_data s)))
                  +:+ Text.nl)
     else Forall (fun section => block_kind_of section <> Some StockBlock) sections.
Proof.
  intros s sections. split; [vm_compute; reflexivity|].
  apply (stock_summary_guard_agrees sample_tools s sections).
  vm_compute. reflexivity.
Defined.


(** ** The workflow with the repository's own tools *)

Section Pipeline.

Context (S : Sources).

Lemma collect_with_tools (company : string) :
  collect_data_directly (Repo.tools S) company
  = Returned (mkCollect (Repo.news_fetcher_tool S company)
                        (Repo.stock_data_tool S company)).
Proof. reflexivity. Qed.

(** Of the analysis only the formatting of the stock summary can fail. *)
Lemma analyze_with_tools (company : string)
    (news : option (list article)) (stock_d : option stock) :
  analyze_data_directly (Repo.tools S) company news stock_d
  = stock_summary ← format_stock_for_summary (Repo.tools S) stock_d;
    Returned
      (mkAnalysis
         (Repo.summary_generator_tool company
            (format_news_for_summary (Repo.tools S) news) stock_summary)
         (default [] (rr_all_risks (Repo.risk_analyzer_tool S company news stock_d)))
         (rr_risk_level (Repo.risk_analyzer_tool S company news stock_d))).
Proof. reflexivity. Qed.

(** The state the report generator receives, and what the run returns, when
    the stock summary can be formatted. *)
Lemma run_with_tools (company thread_id stock_summary : string) :
  let news := Repo.news_fetcher_tool S company in
  let stock_d := Repo.stock_data_tool S company in
  format_stock_for_summary (Repo.tools S) (Some stock_d) = Returned stock_summary ->
  exists log sections,
    report_sections (Repo.tools S)
      (mkState company (Some news) (Some stock_d)
         (Some (Repo.summary_generator_tool company
                  (format_news_for_summary (Repo.tools S) (Some news)) stock_summary))
         (Some (default []
                  (rr_all_risks
                     (Repo.risk_analyzer_tool S company (Some news) (Some stock_d)))))
         None (Some "analyst") None log)
    = Returned sections
    /\ run_intelligence_workflow (Repo.tools S) company thread_id
       = Returned (mkUpdate None None None None (Some (Text.join Text.nl sections))
                     (Some "report_generator") None
                     (Some [AIMessage "Final report generated"])).
Proof.
  intros news stock_d Hformat.
  assert (analyze_data_directly (Repo.tools S) company (Some news) (Some stock_d)
          = Returned
              (mkAnalysis
                 (Repo.summary_generator_tool company
                    (format_news_for_summary (Repo.tools S) (Some news)) stock_summary)
                 (default []
                    (rr_all_risks
                       (Repo.risk_analyzer_tool S company (Some news) (Some stock_d))))
                 (rr_risk_level
                    (Repo.risk_analyzer_tool S company (Some news) (Some stock_d)))))
    as Hanalyse by (by rewrite analyze_with_tools, Hformat).
  apply (run_success_report (Repo.tools S) company thread_id
           (mkCollect news stock_d) _ (collect_with_tools company) Hanalyse).
Qed.





End Pipeline.

Section Degraded.

Context (S : Sources).


(** X19: when the news generator fails, the news tool hands on one article
    without any field.  The data collector logs one collected article and
    the risk analyser finds no news risk in it; and when the stock summary
    can be formatted, the run goes on to a report that shows a news block
    with the placeholders. *)
Theorem news_failure_placeholder (company thread_id e stock_summary : string) :
  generate_simulated_news S company = Raised e ->
  format_stock_for_summary (Repo.tools S) (Some (Repo.stock_data_tool S company))
  = Returned stock_summary ->
  Repo.news_fetcher_tool S company = [Repo.error_article]
  /\ Repo.analyze_news_risks [Repo.error_article] = []
  /\ upd_messages (data_collector_node (Repo.tools S) (create_initial_state company))
     = Some [AIMessage ("Collected 1 news articles and stock data for " +:+ company)]
  /\ exists state sections,
       report_sections (Repo.tools S) state = Returned sections
       /\ run_intelligence_workflow (Repo.tools S) company thread_id
          = Returned (mkUpdate None None None None (Some (Text.join Text.nl sections))
                        (Some "report_generator") None
                        (Some [AIMessage "Final report generated"]))
       /\ error state = None
       /\ In (Text.nl +:+ "## 📰 Recent News Headlines" +:+ Text.nl
              +:+ ("  🟡 N/A" +:+ Text.nl +:+ "     Source: Unknown | General")
              +:+ Text.nl)
             sections.
Proof.
  intros Hfail Hformat.
  assert (Hnews : Repo.news_fetcher_tool S company = [Repo.error_article])
    by (unfold Repo.news_fetcher_tool; by rewrite Hfail).
  split; [exact Hnews|]. split; [reflexivity|]. split.
  { unfold data_collector_node. cbn [company_name create_initial_state].
    rewrite collect_with_tools. cbn [cr_news_data upd_messages]. by rewrite Hnews. }
  destruct (run_with_tools S company thread_id _ Hformat)
    as (log & sections & Hsections & Hrun).
  eexists _, sections. split; [exact Hsections|]. split; [exact Hrun|].
  split; [reflexivity|].
  match type of Hsections with
  | report_sections _ ?state = _ =>
      rewrite (report_sections_returned (Repo.tools S) state _ Hformat) in Hsections
  end.
  injection Hsections as <-.
  cbn [block_written has_source_data news_data]. rewrite Hnews.
  cbn [truthy_list]. right. apply in_or_app. left.
  apply in_or_app. right. apply in_or_app. left. left. reflexivity.
Qed.


End Degraded.


Lemma news_failure_placeholder_witness :
  let S := scenario_sources (Raised "feed down") (Returned sample_stock) in
  generate_simulated_news S "Acme Corp" = Raised "feed down"
  /\ format_stock_for_summary (Repo.tools S) (Some (Repo.stock_data_tool S "Acme Corp"))
     = Returned ("Stock Performance Summary:" +:+ Text.nl
                 +:+ "- Current Price: $123.45 USD")
  /\ Repo.news_fetcher_tool S "Acme Corp" = [Repo.error_article]
  /\ Repo.analyze_news_risks [Repo.error_article] = []
  /\ upd_messages (data_collector_node (Repo.tools S) (create_initial_state "Acme Corp"))
     = Some [AIMessage ("Collected 1 news articles and stock data for " +:+ "Acme Corp")]
  /\ exists state sections,
       report_sections (Repo.tools S) state = Returned sections
       /\ run_intelligence_workflow (Repo.tools S) "Acme Corp" "default"
          = Returned (mkUpdate None None None None (Some (Text.join Text.nl sections))
                        (Some "report_generator") None
                        (Some [AIMessage "Final report generated"]))
       /\ error state = None
       /\ In (Text.nl +:+ "## 📰 Recent News Headlines" +:+ Text.nl
              +:+ ("  🟡 N/A" +:+ Text.nl +:+ "     Source: Unknown | General")
              +:+ Text.nl)
             sections.
Proof.
  intros S. split; [reflexivity|]. split; [vm_compute; reflexivity|].
  apply (news_failure_placeholder S "Acme Corp" "default" "feed down"
           ("Stock Performance Summary:" +:+ Text.nl
            +:+ "- Current Price: $123.45 USD"));
    [reflexivity|vm_compute; reflexivity].
Defined.


(** ** Routing *)

Lemma marker_is (s : AgentState) (name : string) :
  name <> "" ->
  String.eqb (default "" (current_agent s)) name = true
  <-> current_agent s = Some name.
Proof.
  intros Hname. rewrite String.eqb_eq.
  destruct (current_agent s); cbn; split; congruence.
Qed.

(** X21: the router answers ["analyst"], ["report_generator"] or ["end"].
    The two path maps of the graph are partial: the edge after the data
    collector raises a [KeyError] exactly for a state without error whose
    marker is ["analyst"], the edge after the analyst exactly for a state
    without error whose marker is ["data_collector"]. *)
Theorem routing_tables_partial (T : Tools) (s : AgentState) :
  In (should_continue s) ["analyst"; "report_generator"; "end"]
  /\ ((exists msg,
         next_target (create_intelligence_workflow T) "data_collector" s = Raised msg)
      <-> truthy_str (error s) = false /\ current_agent s = Some "analyst")
  /\ ((exists msg,
         next_target (create_intelligence_workflow T) "analyst" s = Raised msg)
      <-> truthy_str (error s) = false /\ current_agent s = Some "data_collector").
Proof.
  unfold next_target.
  change (assoc "data_collector" (g_conditional_edges (create_intelligence_workflow T)))
    with (Some (should_continue, [("analyst", ToNode "analyst"); ("end", END)])).
  change (assoc "analyst" (g_conditional_edges (create_intelligence_workflow T)))
    with (Some (should_continue,
                [("report_generator", ToNode "report_generator"); ("end", END)])).
  cbv beta iota.
  rewrite <- (marker_is s "analyst"), <- (marker_is s "data_collector") by discriminate.
  unfold should_continue.
  destruct (truthy_str (error s)).
  { split; [cbn; auto|]. split; (split; [intros [msg H]; discriminate H|intros [H _]; discriminate H]). }
  destruct (String.eqb (default "" (current_agent s)) "data_collector") eqn:Hdc.
  { apply String.eqb_eq in Hdc as ->.
    split; [cbn; auto|]. split.
    - split; [intros [msg H]; discriminate H|intros [_ H]; discriminate H].
    - split; [done|]. intros _. cbn. eauto. }
  destruct (String.eqb (default "" (current_agent s)) "analyst") eqn:Han.
  { split; [cbn; auto|]. split.
    - split; [done|]. intros _. cbn. eauto.
    - split; [intros [msg H]; discriminate H|intros [_ H]; discriminate H]. }
  split; [cbn; auto|]. split;
    (split; [intros [msg H]; discriminate H|intros [_ H]; discriminate H]).
Qed.
